(** * Project Chimera: the dashboard script [app.py] as a sequencer

    [app.py] is a Streamlit script: it loads nine settings from [config.py],
    draws three sidebar controls and, when the button is pressed, calls the
    four pipeline stages in order, halting on the first one that reports
    failure.  The script is embedded as a program in a state-and-exception
    monad.  The state is the disk (the two dataset files live there) and the
    list of what the script has shown and called so far; an exception is a
    Python exception, and [st.stop()] is the exception Streamlit raises to
    halt a script run.  Everything the script calls but does not define
    (the four stage modules, [config.py], pandas, the browser session) is a
    variable of the development. *)

From Stdlib Require Import ZArith Ascii String List DecimalString.
From stdpp Require Import base option list gmap strings.

Local Open Scope string_scope.
Local Open Scope Z_scope.

(** ** Python values and exceptions *)

(** A cell of a table, and a DataFrame as its columns in order. *)
Inductive Cell :=
| CNa
| CInt (n : Z)
| CFloat (repr : string)
| CStr (s : string)
| CTime (ns : Z).

Abbreviation Series := (list Cell).
Abbreviation DataFrame := (list (string * list Cell)).

(** The values the script handles.  A float is kept as its [repr], which
    Python guarantees to identify the float; [PyObj cls ident] is an object
    of a class that defines neither [__bool__] nor [__len__], such as a
    matplotlib figure. *)
Inductive PyVal :=
| PyNone
| PyBool (b : bool)
| PyInt (n : Z)
| PyFloat (repr : string)
| PyStr (s : string)
| PyFrame (df : DataFrame)
| PyObj (cls : string) (ident : positive).

(** An exception: the names of its class and of that class's ancestors
    (its method resolution order), and the text [str(e)] gives. *)
Record Exn := { exn_mro : list string; exn_text : string }.

Definition isinstance (e : Exn) (cls : string) : bool :=
  bool_decide (cls ∈ exn_mro e).

Definition FileNotFoundError (text : string) : Exn :=
  {| exn_mro := ["FileNotFoundError"; "OSError"; "Exception"; "BaseException"];
     exn_text := text |}.
Definition NotADirectoryError (text : string) : Exn :=
  {| exn_mro := ["NotADirectoryError"; "OSError"; "Exception"; "BaseException"];
     exn_text := text |}.
Definition IsADirectoryError (text : string) : Exn :=
  {| exn_mro := ["IsADirectoryError"; "OSError"; "Exception"; "BaseException"];
     exn_text := text |}.
Definition KeyError (key : string) : Exn :=
  {| exn_mro := ["KeyError"; "LookupError"; "Exception"; "BaseException"];
     exn_text := "'" +:+ key +:+ "'" |}.
Definition ValueError (text : string) : Exn :=
  {| exn_mro := ["ValueError"; "Exception"; "BaseException"];
     exn_text := text |}.
Definition ParserError (text : string) : Exn :=
  {| exn_mro := ["ParserError"; "ValueError"; "Exception"; "BaseException"];
     exn_text := text |}.
Definition EmptyDataError (text : string) : Exn :=
  {| exn_mro := ["EmptyDataError"; "ValueError"; "Exception"; "BaseException"];
     exn_text := text |}.
Definition ImportError (text : string) : Exn :=
  {| exn_mro := ["ImportError"; "Exception"; "BaseException"];
     exn_text := text |}.
Definition ModuleNotFoundError (text : string) : Exn :=
  {| exn_mro := ["ModuleNotFoundError"; "ImportError"; "Exception"; "BaseException"];
     exn_text := text |}.
Definition StreamlitAPIException (text : string) : Exn :=
  {| exn_mro := ["StreamlitAPIException"; "Exception"; "BaseException"];
     exn_text := text |}.
(** What [st.stop()] raises: not an [Exception], so no handler of the
    script catches it. *)
Definition StopException : Exn :=
  {| exn_mro := ["StopException"; "ScriptControlException"; "BaseException"];
     exn_text := "" |}.

Inductive Outcome (A : Type) :=
| Return (a : A)
| Raise (e : Exn).
Arguments Return {A} a.
Arguments Raise {A} e.

(** Truth value testing, as [if not x] does. *)
Definition truth (v : PyVal) : Outcome bool :=
  match v with
  | PyNone => Return false
  | PyBool b => Return b
  | PyInt n => Return (negb (n =? 0))
  | PyFloat r => Return (negb (String.eqb r "0.0" || String.eqb r "-0.0"))
  | PyStr s => Return (negb (String.eqb s ""))
  | PyFrame _ =>
      Raise (ValueError "The truth value of a DataFrame is ambiguous. Use a.empty, a.bool(), a.item(), a.any() or a.all().")
  | PyObj _ _ => Return true
  end.

(** ** What the script talks to *)

(** The arguments of the stage calls, by keyword. *)
Record CollectionArgs := {
  ca_query : PyVal;
  ca_output_filepath : PyVal;
  ca_newsapi_key : PyVal;
  ca_gnews_key : PyVal;
  ca_twitter_token : PyVal }.

Record ForecastArgs := {
  fa_input_filepath : PyVal;
  fa_pos_threshold : PyVal;
  fa_neg_threshold : PyVal;
  fa_slack_webhook_url : PyVal;
  fa_periods : PyVal }.

Record DashboardArgs := {
  da_analyzed_df : PyVal;
  da_forecast_df : PyVal;
  da_query : PyVal;
  da_periods : PyVal }.

Inductive Call :=
| CallRunCollection (a : CollectionArgs)
| CallRunAnalysis (input_filepath output_filepath : PyVal)
| CallRunForecasting (a : ForecastArgs)
| CallReadCsv (path : PyVal)
| CallGenerateDashboardFigure (a : DashboardArgs).

(** What a run leaves behind, oldest first: what Streamlit was asked to
    draw, what each widget gave back, and each call with its outcome. *)
Inductive Event :=
| SetPageConfig (layout : string)
| Title (text : string)
| SidebarHeader (text : string)
| TextInput (label : string) (value : PyVal) (given : PyVal)
| Selectbox (label : string) (options : list PyVal) (index : nat) (given : PyVal)
| Button (label : string) (given : bool)
| SpinnerEnter (text : string)
| SpinnerExit
| StError (text : string)
| StSuccess (text : string)
| StInfo (text : string)
| Pyplot (fig : PyVal)
| Called (c : Call) (r : Outcome PyVal).

(** A file holds either text that pandas parses to a table, or text on
    which its parser raises with the given message, or nothing at all. *)
Inductive FileContent :=
| Csv (df : DataFrame)
| Garbled (why : string)
| EmptyFile.

Abbreviation Disk := (gmap string FileContent).

Record World := { disk : Disk; shown : list Event }.

Definition fresh (d : Disk) : World := {| disk := d; shown := [] |}.

(** A stage of the pipeline: it may rewrite the disk, and returns or raises. *)
Abbreviation Collaborator := (Disk -> Disk * Outcome PyVal).

(** [modules/task_1_collection.py] to [modules/task_4_dashboard.py]. *)
Record Pipeline := {
  run_collection : CollectionArgs -> Collaborator;
  run_analysis : PyVal -> PyVal -> Collaborator;
  run_forecasting : ForecastArgs -> Collaborator;
  generate_dashboard_figure : DashboardArgs -> Collaborator }.

(** Executing [import config]: there is no such module, or running it
    raises, or it ends with these global names (the module is at [file]). *)
Inductive ConfigImport :=
| ConfigAbsent
| ConfigRaises (e : Exn)
| ConfigLoaded (file : string) (names : gmap string PyVal).

(** The nine names lines 18-22 bind, whatever they are bound to. *)
Record Settings := {
  NEWS_API_KEY : PyVal;
  GNEWS_API_KEY : PyVal;
  TWITTER_BEARER_TOKEN : PyVal;
  SLACK_WEBHOOK_URL : PyVal;
  RAW_NEWS_FILE : PyVal;
  ANALYZED_NEWS_FILE : PyVal;
  QUERY_TOPIC : PyVal;
  POSITIVE_THRESHOLD : PyVal;
  NEGATIVE_THRESHOLD : PyVal }.

(** The interpreter and pandas: [str] of a table or an object,
    [pd.to_datetime] on a column, and [pd.read_csv] on an argument that is
    not a path (a buffer, a descriptor, [None]). *)
Record Library := {
  str_of_object : PyVal -> string;
  to_datetime : Series -> Outcome Series;
  read_csv_other : PyVal -> Outcome DataFrame }.

(** The browser session of this run: the topic typed over the default, if
    any; the entry picked in the selectbox, if any; whether the button was
    pressed; and the exception [st.pyplot] raises on a value, if any. *)
Record Session := {
  typed_topic : option string;
  picked : option nat;
  clicked : bool;
  pyplot_raises : PyVal -> option Exn }.

(** ** The script monad *)

Definition Script (A : Type) : Type := World -> World * Outcome A.

Definition ret {A} (a : A) : Script A := fun w => (w, Return a).

Definition raise {A} (e : Exn) : Script A := fun w => (w, Raise e).

Definition bind {A B} (m : Script A) (k : A -> Script B) : Script B :=
  fun w =>
    match m w with
    | (w', Return a) => k a w'
    | (w', Raise e) => (w', Raise e)
    end.

Declare Scope script_scope.
Delimit Scope script_scope with script.
Notation "x <- m ; k" := (bind m (fun x => k))
  (at level 100, m at next level, right associativity) : script_scope.
Notation "m ;; k" := (bind m (fun _ => k))
  (at level 100, right associativity) : script_scope.
Local Open Scope script_scope.

Definition lift {A} (r : Outcome A) : Script A := fun w => (w, r).

Definition log (ev : Event) (w : World) : World :=
  {| disk := disk w; shown := shown w ++ [ev] |}.

Definition emit (ev : Event) : Script unit := fun w => (log ev w, Return tt).

(** Call a stage: it runs on the disk, and the call is recorded with what
    came back. *)
Definition invoke (c : Call) (f : Collaborator) : Script PyVal :=
  fun w =>
    let (d, r) := f (disk w) in
    ({| disk := d; shown := shown w ++ [Called c r] |}, r).

(** [try: body except C1: h1 except C2 as e: h2]: the first clause whose
    class the exception is an instance of handles it. *)
Definition try_except {A} (body : Script A)
    (clauses : list (string * (Exn -> Script A))) : Script A :=
  fun w =>
    match body w with
    | (w', Return a) => (w', Return a)
    | (w', Raise e) =>
        match List.find (fun c => isinstance e (fst c)) clauses with
        | Some c => snd c e w'
        | None => (w', Raise e)
        end
    end.

(** [with st.spinner(text): body]: the spinner is removed however the body
    ends, and an exception of the body goes on. *)
Definition with_spinner {A} (text : string) (body : Script A) : Script A :=
  fun w =>
    let (w', r) := body (log (SpinnerEnter text) w) in
    (log SpinnerExit w', r).

(** [if cond: body] *)
Definition when (cond : bool) (body : Script unit) : Script unit :=
  if cond then body else ret tt.

(** ** Reading a trace *)

Inductive Stage := Collector | Analyzer | Forecaster | Presenter.

#[global] Instance Stage_eq_dec : EqDecision Stage.
Proof. solve_decision. Defined.

Definition stage_of (c : Call) : option Stage :=
  match c with
  | CallRunCollection _ => Some Collector
  | CallRunAnalysis _ _ => Some Analyzer
  | CallRunForecasting _ => Some Forecaster
  | CallReadCsv _ => None
  | CallGenerateDashboardFigure _ => Some Presenter
  end.

Definition is_call_to (s : Stage) (ev : Event) : bool :=
  match ev with
  | Called c _ => bool_decide (stage_of c = Some s)
  | _ => false
  end.

(** The calls a run made to a stage, in order. *)
Definition calls_to (s : Stage) (tr : list Event) : list Event :=
  List.filter (is_call_to s) tr.

(** The error messages, and the charts, a run showed, in order. *)
Definition errors (tr : list Event) : list string :=
  omap (fun ev => match ev with StError text => Some text | _ => None end) tr.

Definition charts (tr : list Event) : list PyVal :=
  omap (fun ev => match ev with Pyplot fig => Some fig | _ => None end) tr.

(** The world after a step that left the disk as [d] and added [evs]. *)
Definition extend (w : World) (d : Disk) (evs : list Event) : World :=
  {| disk := d; shown := shown w ++ evs |}.

(** ** Pandas and Streamlit, as far as the script uses them *)

(** [df[name]]: the column, or [KeyError]. *)
Fixpoint column (df : DataFrame) (name : string) : option Series :=
  match df with
  | [] => None
  | (n, col) :: rest => if String.eqb n name then Some col else column rest name
  end.

(** [df[name] = col]: the column is replaced where it stands, or added last. *)
Fixpoint set_column (df : DataFrame) (name : string) (col : Series) : DataFrame :=
  match df with
  | [] => [(name, col)]
  | (n, c) :: rest =>
      if String.eqb n name then (n, col) :: rest
      else (n, c) :: set_column rest name col
  end.

Definition has_column (c : FileContent) (name : string) : bool :=
  match c with
  | Csv df => bool_decide (is_Some (column df name))
  | Garbled _ => false
  | EmptyFile => false
  end.

Definition decimal (n : Z) : string := NilZero.string_of_int (Z.to_int n).

(** The disk holds regular files under their paths as spelled, with [/]
    between the components; a directory is there when a file is under it.
    [parents p] are the leading parts of [p] that opening [p] goes
    through: ["data"] for ["data/analyzed_news.csv"]. *)
Fixpoint parents_from (seen rest : string) : list string :=
  match rest with
  | EmptyString => []
  | String c rest' =>
      if Ascii.eqb c "/"%char then
        (if String.eqb seen "" then [] else [seen])
          ++ parents_from (seen +:+ "/") rest'
      else parents_from (seen +:+ String c EmptyString) rest'
  end.

Definition parents (p : string) : list string := parents_from "" p.

(** A leading part of [p] is a regular file; and [p] is a directory. *)
Definition under_a_file (d : Disk) (p : string) : bool :=
  List.existsb (fun parent => bool_decide (is_Some (d !! parent))) (parents p).

Definition holds_files (d : Disk) (p : string) : bool :=
  List.existsb (fun entry => bool_decide (p ∈ parents (fst entry))) (map_to_list d).

(** ** A sample installation

    A configuration, a session and stages that behave, to run the script on. *)

Definition sample_names : gmap string PyVal :=
  list_to_map
    [("NEWS_API_KEY", PyStr "news-key");
     ("GNEWS_API_KEY", PyStr "gnews-key");
     ("TWITTER_BEARER_TOKEN", PyStr "bearer");
     ("SLACK_WEBHOOK_URL", PyStr "https://hooks.slack.example/T0");
     ("RAW_NEWS_FILE", PyStr "data/raw_news.csv");
     ("ANALYZED_NEWS_FILE", PyStr "data/analyzed_news.csv");
     ("QUERY_TOPIC", PyStr "artificial intelligence");
     ("POSITIVE_THRESHOLD", PyFloat "0.2");
     ("NEGATIVE_THRESHOLD", PyFloat "-0.2")].

Definition sample_config : ConfigImport :=
  ConfigLoaded "/srv/chimera/config.py" sample_names.

Definition sample_settings : Settings :=
  {| NEWS_API_KEY := PyStr "news-key";
     GNEWS_API_KEY := PyStr "gnews-key";
     TWITTER_BEARER_TOKEN := PyStr "bearer";
     SLACK_WEBHOOK_URL := PyStr "https://hooks.slack.example/T0";
     RAW_NEWS_FILE := PyStr "data/raw_news.csv";
     ANALYZED_NEWS_FILE := PyStr "data/analyzed_news.csv";
     QUERY_TOPIC := PyStr "artificial intelligence";
     POSITIVE_THRESHOLD := PyFloat "0.2";
     NEGATIVE_THRESHOLD := PyFloat "-0.2" |}.

(** The same, but [NEGATIVE_THRESHOLD] is the text [high], not a number. *)
Definition malformed_config : ConfigImport :=
  ConfigLoaded "/srv/chimera/config.py"
    (<["NEGATIVE_THRESHOLD" := PyStr "high"]> sample_names).

(** The same, but [config.py] does not define [SLACK_WEBHOOK_URL]. *)
Definition incomplete_config : ConfigImport :=
  ConfigLoaded "/srv/chimera/config.py" (delete "SLACK_WEBHOOK_URL" sample_names).

Definition raw_table : DataFrame :=
  [("publishedAt", [CStr "2024-05-01T09:00:00Z"; CStr "2024-05-02T10:30:00Z"]);
   ("title", [CStr "Chips rally"; CStr "Model recalled"])].

Definition analyzed_table : DataFrame :=
  raw_table ++ [("sentiment", [CFloat "0.6"; CFloat "-0.4"])].

(** An enriched table whose timestamp column has another name. *)
Definition undated_table : DataFrame :=
  [("date", [CStr "2024-05-01"]); ("sentiment", [CFloat "0.6"])].

Definition forecast_table : DataFrame :=
  [("ds", [CTime 1714694400; CTime 1714780800]); ("yhat", [CFloat "0.1"; CFloat "0.15"])].

Definition sample_lib : Library :=
  {| str_of_object := fun _ => "<object>";
     to_datetime := fun col =>
       Return (List.map (fun c => match c with CStr _ => CTime 0 | _ => c end) col);
     read_csv_other := fun _ =>
       Raise (ValueError "Invalid file path or buffer object type") |}.


Definition answers (v : PyVal) : Collaborator := fun d => (d, Return v).
Definition fails (e : Exn) : Collaborator := fun d => (d, Raise e).
Definition writes (path : string) (df : DataFrame) (v : PyVal) : Collaborator :=
  fun d => (<[path := Csv df]> d, Return v).

Definition pipeline_of (collect analyze forecast present : Collaborator) : Pipeline :=
  {| run_collection := fun _ => collect;
     run_analysis := fun _ _ => analyze;
     run_forecasting := fun _ => forecast;
     generate_dashboard_figure := fun _ => present |}.

Definition collect_ok : Collaborator := writes "data/raw_news.csv" raw_table (PyBool true).
Definition analyze_ok : Collaborator :=
  writes "data/analyzed_news.csv" analyzed_table (PyBool true).
Definition forecast_ok : Collaborator := answers (PyFrame forecast_table).
Definition present_ok : Collaborator := answers (PyObj "matplotlib.figure.Figure" 1).

Definition sample_mods : Pipeline :=
  pipeline_of collect_ok analyze_ok forecast_ok present_ok.

(** Stages that misbehave: a Collector that finds nothing, one that
    reports success and writes nothing, an Analyzer that
    reports failure, one that reports success but writes no file, one that
    writes a table without [publishedAt], a Forecaster that returns [None],
    and a Presenter that cannot find one of its own files. *)
Definition collect_nothing : Collaborator := answers (PyBool false).
Definition analyze_failing : Collaborator := answers (PyBool false).
Definition analyze_forgetful : Collaborator := answers (PyBool true).
Definition analyze_undated : Collaborator :=
  writes "data/analyzed_news.csv" undated_table (PyBool true).
Definition forecast_none : Collaborator := answers PyNone.

(** The button pressed with the inputs untouched; and the page just opened. *)
Definition pressed_ui : Session :=
  {| typed_topic := None; picked := None; clicked := true;
     pyplot_raises := fun _ => None |}.
Definition idle_ui : Session :=
  {| typed_topic := None; picked := None; clicked := false;
     pyplot_raises := fun _ => None |}.
(** "xyz" typed, 30 days picked, the button pressed. *)
Definition xyz_ui : Session :=
  {| typed_topic := Some "xyz"; picked := Some 2%nat; clicked := true;
     pyplot_raises := fun _ => None |}.

Section App.

Variable lib : Library.
Variable config : ConfigImport.
Variable mods : Pipeline.
Variable ui : Session.

(** [str(v)], as an f-string and [st.text_input] apply it. *)
Definition py_str (v : PyVal) : string :=
  match v with
  | PyNone => "None"
  | PyBool true => "True"
  | PyBool false => "False"
  | PyInt n => decimal n
  | PyFloat r => r
  | PyStr s => s
  | PyFrame _ | PyObj _ _ => str_of_object lib v
  end.

Definition getitem (df : DataFrame) (name : string) : Script Series :=
  match column df name with
  | Some col => ret col
  | None => raise (KeyError name)
  end.

(** [pd.read_csv(path)] opens the path and parses the text.  Where the
    path names no file, the error is the one [open] gives: [ENOTDIR] when a
    leading part of the path is a regular file, [EISDIR] when the path is a
    directory, [ENOENT] otherwise; only the last is a [FileNotFoundError].
    Permissions are not modelled. *)
Definition read_csv (path : PyVal) (d : Disk) : Outcome DataFrame :=
  match path with
  | PyStr p =>
      match d !! p with
      | Some (Csv df) => Return df
      | Some (Garbled why) => Raise (ParserError why)
      | Some EmptyFile => Raise (EmptyDataError "No columns to parse from file")
      | None =>
          if under_a_file d p then
            Raise (NotADirectoryError ("[Errno 20] Not a directory: '" +:+ p +:+ "'"))
          else if holds_files d p then
            Raise (IsADirectoryError ("[Errno 21] Is a directory: '" +:+ p +:+ "'"))
          else
            Raise (FileNotFoundError
                     ("[Errno 2] No such file or directory: '" +:+ p +:+ "'"))
      end
  | _ => read_csv_other lib path
  end.

(** What a read gave, as the trace records it. *)
Definition reading (r : Outcome DataFrame) : Outcome PyVal :=
  match r with
  | Return df => Return (PyFrame df)
  | Raise e => Raise e
  end.

Definition pd_read_csv (path : PyVal) : Script DataFrame :=
  fun w =>
    let r := read_csv path (disk w) in
    (log (Called (CallReadCsv path) (reading r)) w, r).

Definition pd_to_datetime (col : Series) : Script Series :=
  lift (to_datetime lib col).

Definition st_error (text : string) : Script unit := emit (StError text).
Definition st_success (text : string) : Script unit := emit (StSuccess text).
Definition st_info (text : string) : Script unit := emit (StInfo text).
Definition st_stop {A} : Script A := raise StopException.

Definition st_pyplot (fig : PyVal) : Script unit :=
  match pyplot_raises ui fig with
  | Some e => raise e
  | None => emit (Pyplot fig)
  end.

(** An untouched text field gives back its initial value cast to [str],
    and [None] for the initial value [None]. *)
Definition st_sidebar_text_input (label : string) (value : PyVal) : Script PyVal :=
  let given :=
    match typed_topic ui with
    | Some s => PyStr s
    | None =>
        match value with
        | PyNone => PyNone
        | _ => PyStr (py_str value)
        end
    end in
  emit (TextInput label value given);; ret given.

(** A selectbox gives back one of its options: the one picked, or the one
    at [index] while nothing (valid) is picked. *)
Definition st_sidebar_selectbox (label : string) (options : list PyVal)
    (index : nat) : Script PyVal :=
  match options !! index with
  | None =>
      raise (StreamlitAPIException
               "Selectbox index must be greater than or equal to 0 and less than the length of options.")
  | Some initial =>
      let given :=
        match picked ui with
        | Some i => default initial (options !! i)
        | None => initial
        end in
      emit (Selectbox label options index given);; ret given
  end.

Definition st_sidebar_button (label : string) : Script bool :=
  emit (Button label (clicked ui));; ret (clicked ui).

(** [not v] *)
Definition py_not (v : PyVal) : Script bool :=
  b <- lift (truth v); ret (negb b).

(** ** [app.py] *)

(** One name of [from config import (...)]. *)
Definition import_from (file : string) (names : gmap string PyVal)
    (name : string) : Script PyVal :=
  match names !! name with
  | Some v => ret v
  | None =>
      raise (ImportError ("cannot import name '" +:+ name +:+ "' from 'config' ("
                            +:+ file +:+ ")"))
  end.

(** Lines 18-22: the nine names are taken from the module in order. *)
Definition from_config_import : Script Settings :=
  match config with
  | ConfigAbsent => raise (ModuleNotFoundError "No module named 'config'")
  | ConfigRaises e => raise e
  | ConfigLoaded file names =>
      news <- import_from file names "NEWS_API_KEY";
      gnews <- import_from file names "GNEWS_API_KEY";
      twitter <- import_from file names "TWITTER_BEARER_TOKEN";
      slack <- import_from file names "SLACK_WEBHOOK_URL";
      raw <- import_from file names "RAW_NEWS_FILE";
      analyzed <- import_from file names "ANALYZED_NEWS_FILE";
      topic <- import_from file names "QUERY_TOPIC";
      pos <- import_from file names "POSITIVE_THRESHOLD";
      neg <- import_from file names "NEGATIVE_THRESHOLD";
      ret {| NEWS_API_KEY := news; GNEWS_API_KEY := gnews;
             TWITTER_BEARER_TOKEN := twitter; SLACK_WEBHOOK_URL := slack;
             RAW_NEWS_FILE := raw; ANALYZED_NEWS_FILE := analyzed;
             QUERY_TOPIC := topic; POSITIVE_THRESHOLD := pos;
             NEGATIVE_THRESHOLD := neg |}
  end.

Definition config_error_text : string :=
  "💥 **Configuration Error:** Could not load settings from `config.py`. Please check the file.".

(** Lines 17-28. *)
Definition load_settings : Script Settings :=
  try_except from_config_import
    [("ImportError", fun e =>
        st_error config_error_text;;
        st_error ("Details: " +:+ exn_text e);;
        st_info "Ensure your `config.py` and `.env` files are correctly set up.";;
        st_stop)].

Definition horizons : list PyVal := [PyInt 7; PyInt 15; PyInt 30].
Definition trigger_label : string := "🚀 Generate New Report".
Definition prompt_text : string :=
  "Enter a topic in the sidebar and click 'Generate New Report' to begin.".

(** Lines 32-41: the page, the two inputs and the trigger. *)
Definition controls (cfg : Settings) : Script (PyVal * PyVal * bool) :=
  emit (SetPageConfig "wide");;
  emit (Title "📈 Project Chimera: Strategic Intelligence Dashboard");;
  emit (SidebarHeader "Dashboard Controls");;
  query <- st_sidebar_text_input "Enter a new topic to analyze:" (QUERY_TOPIC cfg);
  forecast_periods <- st_sidebar_selectbox "Select Forecast Period (days):" horizons 0;
  pressed <- st_sidebar_button trigger_label;
  ret (query, forecast_periods, pressed).

Definition collection_args (cfg : Settings) (query : PyVal) : CollectionArgs :=
  {| ca_query := query;
     ca_output_filepath := RAW_NEWS_FILE cfg;
     ca_newsapi_key := NEWS_API_KEY cfg;
     ca_gnews_key := GNEWS_API_KEY cfg;
     ca_twitter_token := TWITTER_BEARER_TOKEN cfg |}.

Definition forecast_args (cfg : Settings) (forecast_periods : PyVal) : ForecastArgs :=
  {| fa_input_filepath := ANALYZED_NEWS_FILE cfg;
     fa_pos_threshold := POSITIVE_THRESHOLD cfg;
     fa_neg_threshold := NEGATIVE_THRESHOLD cfg;
     fa_slack_webhook_url := SLACK_WEBHOOK_URL cfg;
     fa_periods := forecast_periods |}.

Definition collection_failed_text : string :=
  "Failed to collect any articles. Please check your API keys and the query term.".
Definition analysis_failed_text : string :=
  "Sentiment analysis failed. Please check the logs.".
Definition step1_text : string :=
  "Step 1/4: Collecting articles from NewsAPI, GNews, and Twitter...".
Definition step2_text : string :=
  "Step 2/4: Analyzing sentiment of collected articles...".
Definition step3_text : string :=
  "Step 3/4: Generating forecast and checking for alerts...".
Definition step4_text : string :=
  "Step 4/4: Creating dashboard visualization...".
Definition dashboard_done_text : string := "Dashboard generated successfully!".

(** Lines 43-56. *)
Definition stage1 (cfg : Settings) (query : PyVal) : Script unit :=
  collection_success <-
    with_spinner step1_text
      (invoke (CallRunCollection (collection_args cfg query))
         (run_collection mods (collection_args cfg query)));
  failed <- py_not collection_success;
  when failed (st_error collection_failed_text;; st_stop);;
  st_success "Step 1/4: Data collection complete!".

(** Lines 58-65. *)
Definition stage2 (cfg : Settings) : Script unit :=
  analysis_success <-
    with_spinner step2_text
      (invoke (CallRunAnalysis (RAW_NEWS_FILE cfg) (ANALYZED_NEWS_FILE cfg))
         (run_analysis mods (RAW_NEWS_FILE cfg) (ANALYZED_NEWS_FILE cfg)));
  failed <- py_not analysis_success;
  when failed (st_error analysis_failed_text;; st_stop);;
  st_success "Step 2/4: Sentiment analysis complete!".

(** Lines 67-76. *)
Definition stage3 (cfg : Settings) (forecast_periods : PyVal) : Script PyVal :=
  forecast_df <-
    with_spinner step3_text
      (invoke (CallRunForecasting (forecast_args cfg forecast_periods))
         (run_forecasting mods (forecast_args cfg forecast_periods)));
  st_success "Step 3/4: Forecasting complete!";;
  ret forecast_df.

Definition missing_file_text (cfg : Settings) : string :=
  "Could not find the analyzed data file: " +:+ py_str (ANALYZED_NEWS_FILE cfg).
Definition render_error_text (e : Exn) : string :=
  "An error occurred while creating the dashboard: " +:+ exn_text e.

(** The keyword arguments of line 84: the table read back, with its
    [publishedAt] column replaced by the converted one. *)
Definition dashboard_args (df : DataFrame) (converted : Series)
    (query forecast_periods forecast_df : PyVal) : DashboardArgs :=
  {| da_analyzed_df := PyFrame (set_column df "publishedAt" converted);
     da_forecast_df := forecast_df;
     da_query := query;
     da_periods := forecast_periods |}.

(** Lines 81-91, the body of the [try]. *)
Definition render (cfg : Settings) (query forecast_periods forecast_df : PyVal)
    : Script unit :=
  analyzed_df <- pd_read_csv (ANALYZED_NEWS_FILE cfg);
  published <- getitem analyzed_df "publishedAt";
  converted <- pd_to_datetime published;
  let args :=
    dashboard_args analyzed_df converted query forecast_periods forecast_df in
  fig <- invoke (CallGenerateDashboardFigure args)
           (generate_dashboard_figure mods args);
  st_pyplot fig;;
  st_success dashboard_done_text.

(** Lines 78-96. *)
Definition stage4 (cfg : Settings) (query forecast_periods forecast_df : PyVal)
    : Script unit :=
  with_spinner step4_text
    (try_except (render cfg query forecast_periods forecast_df)
       [("FileNotFoundError", fun _ => st_error (missing_file_text cfg));
        ("Exception", fun e => st_error (render_error_text e))]).

(** Lines 41-99, the script from its configuration on. *)
Definition app : Script unit :=
  cfg <- load_settings;
  c <- controls cfg;
  let '(query, forecast_periods, pressed) := c in
  if (pressed : bool) then
    stage1 cfg query;;
    stage2 cfg;;
    forecast_df <- stage3 cfg forecast_periods;
    stage4 cfg query forecast_periods forecast_df
  else
    st_info prompt_text.

(** The run up to the end of Stage 3: where Stage 4 starts, and with what.
    [None] when the button was not pressed. *)
Definition upto_render : Script (option (Settings * PyVal * PyVal * PyVal)) :=
  cfg <- load_settings;
  c <- controls cfg;
  let '(query, forecast_periods, pressed) := c in
  if (pressed : bool) then
    stage1 cfg query;;
    stage2 cfg;;
    forecast_df <- stage3 cfg forecast_periods;
    ret (Some (cfg, query, forecast_periods, forecast_df))
  else
    st_info prompt_text;; ret None.

(** A run of the script starts with nothing shown. *)
Definition run (d : Disk) : World * Outcome unit := app (fresh d).
Definition trace (d : Disk) : list Event := shown (fst (run d)).
Definition outcome (d : Disk) : Outcome unit := snd (run d).

(** ** What the definitions above compute *)

(** What the two inputs give back in this session. *)
Definition topic (cfg : Settings) : PyVal :=
  match typed_topic ui with
  | Some s => PyStr s
  | None =>
      match QUERY_TOPIC cfg with
      | PyNone => PyNone
      | _ => PyStr (py_str (QUERY_TOPIC cfg))
      end
  end.

Definition horizon : PyVal :=
  match picked ui with
  | Some i => default (PyInt 7) (horizons !! i)
  | None => PyInt 7
  end.

Definition page (cfg : Settings) : list Event :=
  [SetPageConfig "wide";
   Title "📈 Project Chimera: Strategic Intelligence Dashboard";
   SidebarHeader "Dashboard Controls";
   TextInput "Enter a new topic to analyze:" (QUERY_TOPIC cfg) (topic cfg);
   Selectbox "Select Forecast Period (days):" horizons 0 horizon;
   Button trigger_label (clicked ui)].

(** [cfg] holds what [config.py] binds the nine names to. *)
Definition configured (cfg : Settings) : Prop :=
  exists file names,
    config = ConfigLoaded file names /\
    names !! "NEWS_API_KEY" = Some (NEWS_API_KEY cfg) /\
    names !! "GNEWS_API_KEY" = Some (GNEWS_API_KEY cfg) /\
    names !! "TWITTER_BEARER_TOKEN" = Some (TWITTER_BEARER_TOKEN cfg) /\
    names !! "SLACK_WEBHOOK_URL" = Some (SLACK_WEBHOOK_URL cfg) /\
    names !! "RAW_NEWS_FILE" = Some (RAW_NEWS_FILE cfg) /\
    names !! "ANALYZED_NEWS_FILE" = Some (ANALYZED_NEWS_FILE cfg) /\
    names !! "QUERY_TOPIC" = Some (QUERY_TOPIC cfg) /\
    names !! "POSITIVE_THRESHOLD" = Some (POSITIVE_THRESHOLD cfg) /\
    names !! "NEGATIVE_THRESHOLD" = Some (NEGATIVE_THRESHOLD cfg).

Definition required_settings : list string :=
  ["NEWS_API_KEY"; "GNEWS_API_KEY"; "TWITTER_BEARER_TOKEN"; "SLACK_WEBHOOK_URL";
   "RAW_NEWS_FILE"; "ANALYZED_NEWS_FILE"; "QUERY_TOPIC";
   "POSITIVE_THRESHOLD"; "NEGATIVE_THRESHOLD"].

(** [import config] or one of the nine names fails with an [ImportError]. *)
Definition unimportable : Prop :=
  config = ConfigAbsent \/
  (exists e, config = ConfigRaises e /\ isinstance e "ImportError" = true) \/
  (exists file names name,
     config = ConfigLoaded file names /\ name ∈ required_settings /\
     names !! name = None).

Definition config_error_shown (e : Exn) : list Event :=
  [StError config_error_text;
   StError ("Details: " +:+ exn_text e);
   StInfo "Ensure your `config.py` and `.env` files are correctly set up."].

Lemma extend_nil w : extend w (disk w) [] = w.
Proof. destruct w; unfold extend; simpl. by rewrite app_nil_r. Qed.

Lemma extend_extend w d1 evs1 d2 evs2 :
  extend (extend w d1 evs1) d2 evs2 = extend w d2 (evs1 ++ evs2).
Proof. unfold extend; simpl. by rewrite app_assoc. Qed.

Lemma log_extend ev w : log ev w = extend w (disk w) [ev].
Proof. reflexivity. Qed.

Lemma horizon_choices : horizon = PyInt 7 \/ horizon = PyInt 15 \/ horizon = PyInt 30.
Proof.
  unfold horizon. destruct (picked ui) as [[|[|[|i]]]|]; simpl; auto.
Qed.

Lemma controls_eq cfg w :
  controls cfg w = (extend w (disk w) (page cfg), Return (topic cfg, horizon, clicked ui)).
Proof.
  unfold controls, st_sidebar_text_input, st_sidebar_selectbox, st_sidebar_button,
    bind, emit, ret, log, extend, page, topic, horizon; simpl.
  by rewrite <- !app_assoc.
Qed.

Lemma from_config_import_loaded file names w :
  config = ConfigLoaded file names ->
  (exists cfg, configured cfg /\ from_config_import w = (w, Return cfg)) \/
  (exists name,
     name ∈ required_settings /\ names !! name = None /\
     from_config_import w =
       (w, Raise (ImportError ("cannot import name '" +:+ name +:+ "' from 'config' ("
                                 +:+ file +:+ ")")))).
Proof.
  intros Hc. unfold from_config_import, configured. rewrite Hc.
  unfold bind, import_from, ret, raise.
  repeat match goal with
  | |- context [names !! ?n] =>
      lazymatch goal with
      | H : names !! n = _ |- _ => fail
      | _ => idtac
      end;
      destruct (names !! n) eqn:?;
      [ | right; exists n; split; [unfold required_settings; repeat constructor | done] ]
  end.
  left. eexists. split; [ | reflexivity ]. exists file, names. simpl. done.
Qed.

Lemma configured_importable cfg : configured cfg -> ~ unimportable.
Proof.
  intros (file & names & Hc & H1 & H2 & H3 & H4 & H5 & H6 & H7 & H8 & H9).
  intros [Ha | [(e & He & _) | (file' & names' & name & Hc' & Hin & Hn)]];
    try congruence.
  rewrite Hc in Hc'. injection Hc' as <- <-.
  unfold required_settings in Hin.
  repeat (apply elem_of_cons in Hin as [-> | Hin]; [congruence | ]).
  by apply elem_of_nil in Hin.
Qed.

(** The three ways lines 17-28 end: the settings are bound; the
    configuration error is shown and the run stopped; or an exception that
    is no [ImportError] leaves the script. *)
Lemma load_settings_cases w :
  (exists cfg, configured cfg /\ load_settings w = (w, Return cfg)) \/
  (exists e,
     unimportable /\ isinstance e "ImportError" = true /\
     load_settings w = (extend w (disk w) (config_error_shown e), Raise StopException)) \/
  (exists e,
     config = ConfigRaises e /\ isinstance e "ImportError" = false /\
     load_settings w = (w, Raise e)).
Proof.
  destruct config as [ | e | file names] eqn:Hc.
  - right; left. exists (ModuleNotFoundError "No module named 'config'").
    split; [by left | ]. split; [reflexivity | ].
    unfold load_settings, try_except, from_config_import. rewrite Hc.
    unfold raise, st_error, st_info, st_stop, bind, emit, raise, extend, log; simpl.
    by rewrite <- !app_assoc.
  - destruct (isinstance e "ImportError") eqn:Hi.
    + right; left. exists e. split; [right; left; eauto | ]. split; [done | ].
      unfold load_settings, try_except, from_config_import. rewrite Hc.
      unfold raise; simpl. rewrite Hi.
      unfold st_error, st_info, st_stop, bind, emit, raise, extend, log; simpl.
      by rewrite <- !app_assoc.
    + right; right. exists e. split; [done | ]. split; [done | ].
      unfold load_settings, try_except, from_config_import. rewrite Hc.
      unfold raise; simpl. by rewrite Hi.
  - destruct (from_config_import_loaded file names w Hc)
      as [(cfg & Hcfg & Hrun) | (name & Hin & Hn & Hrun)].
    + left. exists cfg. split; [done | ].
      unfold load_settings, try_except. by rewrite Hrun.
    + right; left.
      exists (ImportError ("cannot import name '" +:+ name +:+ "' from 'config' ("
                             +:+ file +:+ ")")).
      split; [right; right; eauto 6 | ]. split; [reflexivity | ].
      unfold load_settings, try_except. rewrite Hrun.
      unfold st_error, st_info, st_stop, bind, emit, raise, extend, log; simpl.
      by rewrite <- !app_assoc.
Qed.

(** Lines 43-56 as one case analysis on what the Collector does. *)
Lemma stage1_eq cfg query w :
  stage1 cfg query w =
    let c := CallRunCollection (collection_args cfg query) in
    let '(d, r) := run_collection mods (collection_args cfg query) (disk w) in
    let called := [SpinnerEnter step1_text; Called c r; SpinnerExit] in
    match r with
    | Raise e => (extend w d called, Raise e)
    | Return v =>
        match truth v with
        | Raise e => (extend w d called, Raise e)
        | Return true =>
            (extend w d (called ++ [StSuccess "Step 1/4: Data collection complete!"]),
             Return tt)
        | Return false =>
            (extend w d (called ++ [StError collection_failed_text]),
             Raise StopException)
        end
    end.
Proof.
  unfold stage1, with_spinner, invoke, py_not, when, st_error, st_success, st_stop,
    lift, bind, emit, ret, raise, extend, log; simpl.
  destruct (run_collection mods _ _) as [d [v | e]]; simpl;
    [destruct (truth v) as [[|] | e] | ]; simpl; rewrite <- ?app_assoc; reflexivity.
Qed.

(** Lines 58-65, likewise for the Analyzer. *)
Lemma stage2_eq cfg w :
  stage2 cfg w =
    let c := CallRunAnalysis (RAW_NEWS_FILE cfg) (ANALYZED_NEWS_FILE cfg) in
    let '(d, r) :=
      run_analysis mods (RAW_NEWS_FILE cfg) (ANALYZED_NEWS_FILE cfg) (disk w) in
    let called := [SpinnerEnter step2_text; Called c r; SpinnerExit] in
    match r with
    | Raise e => (extend w d called, Raise e)
    | Return v =>
        match truth v with
        | Raise e => (extend w d called, Raise e)
        | Return true =>
            (extend w d (called ++ [StSuccess "Step 2/4: Sentiment analysis complete!"]),
             Return tt)
        | Return false =>
            (extend w d (called ++ [StError analysis_failed_text]),
             Raise StopException)
        end
    end.
Proof.
  unfold stage2, with_spinner, invoke, py_not, when, st_error, st_success, st_stop,
    lift, bind, emit, ret, raise, extend, log; simpl.
  destruct (run_analysis mods _ _ _) as [d [v | e]]; simpl;
    [destruct (truth v) as [[|] | e] | ]; simpl; rewrite <- ?app_assoc; reflexivity.
Qed.

(** Lines 67-76: nothing is tested on what the Forecaster returns. *)
Lemma stage3_eq cfg periods w :
  stage3 cfg periods w =
    let c := CallRunForecasting (forecast_args cfg periods) in
    let '(d, r) := run_forecasting mods (forecast_args cfg periods) (disk w) in
    let called := [SpinnerEnter step3_text; Called c r; SpinnerExit] in
    match r with
    | Raise e => (extend w d called, Raise e)
    | Return v =>
        (extend w d (called ++ [StSuccess "Step 3/4: Forecasting complete!"]),
         Return v)
    end.
Proof.
  unfold stage3, with_spinner, invoke, st_success, bind, emit, ret, extend, log; simpl.
  destruct (run_forecasting mods _ _) as [d [v | e]]; simpl;
    rewrite <- ?app_assoc; reflexivity.
Qed.

(** Lines 81-91 as one case analysis. *)
Lemma render_eq cfg query periods forecast_df w :
  render cfg query periods forecast_df w =
    let path := ANALYZED_NEWS_FILE cfg in
    match read_csv path (disk w) with
    | Raise e => (extend w (disk w) [Called (CallReadCsv path) (Raise e)], Raise e)
    | Return df =>
        let read := Called (CallReadCsv path) (Return (PyFrame df)) in
        match column df "publishedAt" with
        | None => (extend w (disk w) [read], Raise (KeyError "publishedAt"))
        | Some published =>
            match to_datetime lib published with
            | Raise e => (extend w (disk w) [read], Raise e)
            | Return converted =>
                let args := dashboard_args df converted query periods forecast_df in
                let '(d, r) := generate_dashboard_figure mods args (disk w) in
                let called := [read; Called (CallGenerateDashboardFigure args) r] in
                match r with
                | Raise e => (extend w d called, Raise e)
                | Return fig =>
                    match pyplot_raises ui fig with
                    | Some e => (extend w d called, Raise e)
                    | None =>
                        (extend w d (called ++ [Pyplot fig; StSuccess dashboard_done_text]),
                         Return tt)
                    end
                end
            end
        end
    end.
Proof.
  unfold render, pd_read_csv, getitem, pd_to_datetime, invoke, st_pyplot, st_success,
    lift, bind, emit, ret, raise, extend, log; simpl.
  destruct (read_csv _ _) as [df | e]; simpl; [ | reflexivity].
  destruct (column df _) as [published | ]; simpl; [ | reflexivity].
  destruct (to_datetime lib published) as [converted | e]; simpl; [ | reflexivity].
  destruct (generate_dashboard_figure mods _ _) as [d [fig | e]]; simpl;
    [ | by rewrite <- ?app_assoc].
  destruct (pyplot_raises ui fig); simpl; by rewrite <- ?app_assoc.
Qed.

(** Lines 78-96: how the two [except] clauses end Stage 4. *)
Lemma stage4_eq cfg query periods forecast_df w :
  stage4 cfg query periods forecast_df w =
    let '(w', r) :=
      render cfg query periods forecast_df (extend w (disk w) [SpinnerEnter step4_text]) in
    match r with
    | Return _ => (extend w' (disk w') [SpinnerExit], Return tt)
    | Raise e =>
        if isinstance e "FileNotFoundError" then
          (extend w' (disk w') [StError (missing_file_text cfg); SpinnerExit], Return tt)
        else if isinstance e "Exception" then
          (extend w' (disk w') [StError (render_error_text e); SpinnerExit], Return tt)
        else (extend w' (disk w') [SpinnerExit], Raise e)
    end.
Proof.
  unfold stage4, with_spinner, try_except. rewrite log_extend.
  destruct (render _ _ _ _ _) as [w' [[] | e]]; simpl; [reflexivity | ].
  destruct (isinstance e "FileNotFoundError"); simpl.
  { unfold st_error, emit, log, extend; simpl. by rewrite <- app_assoc. }
  destruct (isinstance e "Exception"); simpl; [ | reflexivity].
  unfold st_error, emit, log, extend; simpl. by rewrite <- app_assoc.
Qed.

Ltac reduce_world :=
  cbv beta iota zeta; cbn [extend disk shown fst snd fresh].

Ltac walk_step :=
  first
    [ rewrite controls_eq | rewrite stage1_eq | rewrite stage2_eq
    | rewrite stage3_eq | rewrite stage4_eq | rewrite render_eq
    | lazymatch goal with
      | |- context [if clicked ui then _ else _] => destruct (clicked ui) eqn:?
      | |- context [run_collection mods ?a ?d] =>
          destruct (run_collection mods a d) as [? [? | ?]] eqn:?
      | |- context [run_analysis mods ?i ?o ?d] =>
          destruct (run_analysis mods i o d) as [? [? | ?]] eqn:?
      | |- context [run_forecasting mods ?a ?d] =>
          destruct (run_forecasting mods a d) as [? [? | ?]] eqn:?
      | |- context [generate_dashboard_figure mods ?a ?d] =>
          destruct (generate_dashboard_figure mods a d) as [? [? | ?]] eqn:?
      | |- context [match truth ?v with _ => _ end] =>
          destruct (truth v) as [[|] | ?] eqn:?
      | |- context [match read_csv ?p ?d with _ => _ end] =>
          destruct (read_csv p d) as [? | ?] eqn:?
      | |- context [match column ?df ?n with _ => _ end] =>
          destruct (column df n) as [? | ] eqn:?
      | |- context [match to_datetime lib ?c with _ => _ end] =>
          destruct (to_datetime lib c) as [? | ?] eqn:?
      | |- context [match pyplot_raises ui ?f with _ => _ end] =>
          destruct (pyplot_raises ui f) as [? | ] eqn:?
      | |- context [if isinstance ?e ?c then _ else _] =>
          destruct (isinstance e c) eqn:?
      end ];
  reduce_world.

(** Follow the script from a fresh world down every way it can go; at the
    end of each, the trace and the outcome of the run are explicit. *)
Ltac walk d :=
  let cfg := fresh "cfg" in
  let Hcfg := fresh "Hcfg" in
  let Hrun := fresh "Hrun" in
  let e := fresh "e" in
  let w := fresh "w" in
  let o := fresh "o" in
  let E := fresh "E" in
  unfold trace, outcome;
  destruct (run d) as [w o] eqn:E; cbn [fst snd]; revert E;
  destruct (load_settings_cases (fresh d))
    as [(cfg & Hcfg & Hrun) | [(e & _ & _ & Hrun) | (e & _ & _ & Hrun)]];
  unfold run, app, bind; rewrite Hrun; reduce_world;
  repeat walk_step;
  intros [= <- <-]; cbn [shown].

(** An event is in an explicit trace: find it. *)
Ltac locate_event :=
  unfold page; cbn [In Datatypes.app];
  solve [repeat first [left; reflexivity | right]].

(** At the end of a path the trace is an explicit list: a hypothesis that an
    event is in it is a finite choice. *)
Ltac pick_event H :=
  unfold page, config_error_shown in H; cbn [In Datatypes.app] in H;
  repeat (destruct H as [H | H]; [try discriminate H | ]);
  try (exfalso; exact H);
  try discriminate H.

(** A run that reaches Stage 4 is Stage 4 run from where the first three
    stages left the world. *)
Lemma run_via_render d w4 cfg query periods forecast_df :
  upto_render (fresh d) = (w4, Return (Some (cfg, query, periods, forecast_df))) ->
  run d = stage4 cfg query periods forecast_df w4.
Proof.
  unfold run, app, upto_render, bind.
  destruct (load_settings (fresh d)) as [w1 [cfg' | e]]; [ | discriminate].
  destruct (controls cfg' w1) as [w2 [[[query' periods'] pressed] | e]]; [ | discriminate].
  destruct pressed.
  - destruct (stage1 cfg' query' w2) as [w3 [[] | e]]; [ | discriminate].
    destruct (stage2 cfg' w3) as [w5 [[] | e]]; [ | discriminate].
    destruct (stage3 cfg' periods' w5) as [w6 [fc | e]]; [ | discriminate].
    unfold ret. by intros [= -> -> -> -> ->].
  - unfold st_info, emit, ret. discriminate.
Qed.

(** What such a run has shown and called when Stage 4 starts. *)
Lemma upto_render_shown d w4 cfg query periods forecast_df :
  upto_render (fresh d) = (w4, Return (Some (cfg, query, periods, forecast_df))) ->
  configured cfg /\ query = topic cfg /\ periods = horizon /\ clicked ui = true /\
  exists v1 v2,
    shown w4 =
      (page cfg ++
      [SpinnerEnter step1_text;
       Called (CallRunCollection (collection_args cfg query)) (Return v1);
       SpinnerExit;
       StSuccess "Step 1/4: Data collection complete!";
       SpinnerEnter step2_text;
       Called (CallRunAnalysis (RAW_NEWS_FILE cfg) (ANALYZED_NEWS_FILE cfg)) (Return v2);
       SpinnerExit;
       StSuccess "Step 2/4: Sentiment analysis complete!";
       SpinnerEnter step3_text;
       Called (CallRunForecasting (forecast_args cfg periods)) (Return forecast_df);
       SpinnerExit;
       StSuccess "Step 3/4: Forecasting complete!"])%list.
Proof.
  destruct (load_settings_cases (fresh d))
    as [(cfg' & Hcfg & Hrun) | [(e & _ & _ & Hrun) | (e & _ & _ & Hrun)]];
    unfold upto_render, bind; rewrite Hrun; [ | discriminate | discriminate].
  repeat walk_step; try discriminate.
  unfold ret. intros [= <- <- <- <- <-]. cbn [shown].
  repeat split; try done. eauto.
Qed.

(** The runs that reach Stage 4 are those that open its spinner. *)
Lemma reaches_stage4 d :
  In (SpinnerEnter step4_text) (trace d) <->
  exists w4 cfg query periods forecast_df,
    upto_render (fresh d) = (w4, Return (Some (cfg, query, periods, forecast_df))).
Proof.
  split.
  - walk d; intros Hin; pick_event Hin; clear Hin.
    all: unfold upto_render, bind; rewrite Hrun; reduce_world.
    all: repeat (first
           [ rewrite controls_eq | rewrite stage1_eq | rewrite stage2_eq
           | rewrite stage3_eq
           | match goal with
             | H : ?x = _ |- context [?x] => rewrite H
             end ]; reduce_world).
    all: unfold ret; eauto 6.
  - intros (w4 & cfg & query & periods & forecast_df & Hup).
    unfold trace. rewrite (run_via_render _ _ _ _ _ _ Hup), stage4_eq.
    destruct (render _ _ _ _ _) as [w' r] eqn:Hrender.
    assert (Hin : In (SpinnerEnter step4_text) (shown w')).
    { revert Hrender. rewrite render_eq. reduce_world.
      repeat walk_step; intros [= <- <-]; cbn [extend shown];
        rewrite ?in_app_iff; cbn [In]; tauto. }
    destruct r as [[] | e]; [ | repeat case_match ];
      cbn [fst extend shown]; rewrite in_app_iff; tauto.
Qed.

Lemma errors_app tr1 tr2 : errors (tr1 ++ tr2) = (errors tr1 ++ errors tr2)%list.
Proof. apply omap_app. Qed.

Lemma charts_app tr1 tr2 : charts (tr1 ++ tr2) = (charts tr1 ++ charts tr2)%list.
Proof. apply omap_app. Qed.

Lemma calls_to_app s tr1 tr2 :
  calls_to s (tr1 ++ tr2) = (calls_to s tr1 ++ calls_to s tr2)%list.
Proof. apply List.filter_app. Qed.

Lemma missing_is_not_render_error cfg e : missing_file_text cfg <> render_error_text e.
Proof. discriminate. Qed.

(** ** The fail-fast contract *)

(** C1. In every run, if [run_collection] returned a value that tests false,
    the run was halted by [st.stop()] right after the one error message,
    which names the API keys and the query term; Stage 2 was not entered,
    and neither the Analyzer, the Forecaster nor the Presenter was called. *)
Theorem collector_failure_halts d a v :
  In (Called (CallRunCollection a) (Return v)) (trace d) ->
  truth v = Return false ->
  outcome d = Raise StopException /\
  errors (trace d) =
    ["Failed to collect any articles. Please check your API keys and the query term."] /\
  last (trace d) = Some (StError collection_failed_text) /\
  ~ In (SpinnerEnter step2_text) (trace d) /\
  calls_to Analyzer (trace d) = [] /\
  calls_to Forecaster (trace d) = [] /\
  calls_to Presenter (trace d) = [].
Proof.
  walk d; intros Hin Hv; pick_event Hin; simplify_eq; try congruence.
  repeat split; try reflexivity.
  intros Hs. pick_event Hs.
Qed.

(** C2. In every run in which [run_collection] returned a value that tests
    true, if [run_analysis] returned one that tests false, the run was
    halted by [st.stop()] right after the one error message; Stage 3 was not
    entered, and neither the Forecaster nor the Presenter was called. *)
Theorem analyzer_failure_halts d a v1 input output v2 :
  In (Called (CallRunCollection a) (Return v1)) (trace d) ->
  truth v1 = Return true ->
  In (Called (CallRunAnalysis input output) (Return v2)) (trace d) ->
  truth v2 = Return false ->
  outcome d = Raise StopException /\
  errors (trace d) = ["Sentiment analysis failed. Please check the logs."] /\
  last (trace d) = Some (StError analysis_failed_text) /\
  ~ In (SpinnerEnter step3_text) (trace d) /\
  calls_to Forecaster (trace d) = [] /\
  calls_to Presenter (trace d) = [].
Proof.
  walk d; intros _ _ Hin Hv; pick_event Hin; simplify_eq; try congruence.
  repeat split; try reflexivity.
  intros Hs. pick_event Hs.
Qed.

(** C3. In every run in which [run_collection] and [run_analysis] both
    returned a value that tests true, [run_forecasting] was called exactly
    once, with the thresholds and the webhook URL that [config.py] defines
    and the horizon the selectbox gave, which is 7, 15 or 30.  The call is
    the Forecaster itself applied to those arguments on the disk the
    Analyzer left: what the trace records is what it gave, and the disk it
    left is the one the run goes on with, into the read of Stage 4 when it
    returned, to the end when it raised. *)
Theorem forecaster_called_once d a v1 input output v2 :
  In (Called (CallRunCollection a) (Return v1)) (trace d) ->
  truth v1 = Return true ->
  In (Called (CallRunAnalysis input output) (Return v2)) (trace d) ->
  truth v2 = Return true ->
  exists cfg h,
    configured cfg /\
    In (Selectbox "Select Forecast Period (days):" [PyInt 7; PyInt 15; PyInt 30] 0 h)
       (trace d) /\
    (h = PyInt 7 \/ h = PyInt 15 \/ h = PyInt 30) /\
    let args :=
      {| fa_input_filepath := ANALYZED_NEWS_FILE cfg;
         fa_pos_threshold := POSITIVE_THRESHOLD cfg;
         fa_neg_threshold := NEGATIVE_THRESHOLD cfg;
         fa_slack_webhook_url := SLACK_WEBHOOK_URL cfg;
         fa_periods := h |} in
    let analyzed := fst (run_analysis mods input output (fst (run_collection mods a d))) in
    let forecast := run_forecasting mods args analyzed in
    calls_to Forecaster (trace d) = [Called (CallRunForecasting args) (snd forecast)] /\
    match snd forecast with
    | Return _ =>
        In (Called (CallReadCsv (ANALYZED_NEWS_FILE cfg))
              (reading (read_csv (ANALYZED_NEWS_FILE cfg) (fst forecast))))
           (trace d)
    | Raise _ => disk (fst (run d)) = fst forecast
    end.
Proof.
  set (collected := run_collection mods a d).
  set (analyzed := run_analysis mods input output (fst collected)).
  walk d; reduce_world; intros Hin1 Hv1 Hin2 Hv2;
    pick_event Hin1; pick_event Hin2; simplify_eq; try congruence.
  all: subst analyzed collected.
  all: exists cfg, horizon.
  all: split; [exact Hcfg | ].
  all: split; [unfold page; cbn [In Datatypes.app]; do 4 right; left; reflexivity | ].
  all: split; [exact horizon_choices | ].
  all: cbv zeta; fold (forecast_args cfg horizon).
  all: repeat match goal with
       | H : ?x = _ |- context [?x] => rewrite H; cbn [fst snd reading]
       end.
  all: split; [reflexivity | ].
  all: first [reflexivity | locate_event].
Qed.

(** Where the Forecaster's call stands in a run: after the page and the
    first two stages, on the disk the Analyzer left. *)
Lemma forecaster_returned d a v :
  In (Called (CallRunForecasting a) (Return v)) (trace d) ->
  exists w4 cfg called_on,
    upto_render (fresh d) = (w4, Return (Some (cfg, topic cfg, horizon, v))) /\
    a = forecast_args cfg horizon /\
    run_forecasting mods a called_on = (disk w4, Return v).
Proof.
  walk d; intros Hin; pick_event Hin; simplify_eq.
  all: match goal with
       | H : run_forecasting mods _ ?on = _ |- _ => eexists _, cfg, on
       end.
  all: split;
    [ unfold upto_render, bind; rewrite Hrun; reduce_world;
      repeat (first
         [ rewrite controls_eq | rewrite stage1_eq | rewrite stage2_eq
         | rewrite stage3_eq
         | match goal with
           | H : ?x = _ |- context [?x] => rewrite H
           end ]; reduce_world);
      unfold ret; reflexivity
    | split; [reflexivity | cbn [extend disk]; eassumption] ].
Qed.

Lemma forecaster_raised d a e :
  In (Called (CallRunForecasting a) (Raise e)) (trace d) ->
  exists before called_on value query,
    Raise e = snd (run_forecasting mods a called_on) /\
    In (TextInput "Enter a new topic to analyze:" value query) before /\
    outcome d = Raise e /\
    errors (trace d) = [] /\
    trace d = (before ++ [Called (CallRunForecasting a) (Raise e); SpinnerExit])%list.
Proof.
  walk d; intros Hin; pick_event Hin; simplify_eq.
  match goal with
  | H : run_forecasting mods _ ?on = _ |- _ =>
      eexists (page cfg ++ [_; _; _; _; _; _; _; _; _])%list, on,
        (QUERY_TOPIC cfg), (topic cfg);
      rewrite H
  end.
  split; [reflexivity | ]. split; [locate_event | ].
  repeat split; reflexivity.
Qed.

(** C4. What the trace records of the Forecaster is what [run_forecasting]
    gave on the disk it was called on.  An exception it raises is the
    outcome of the run, with nothing shown after the call and no error
    message.  Whatever value it returns, [None] included, the run reports
    Stage 3 complete, enters Stage 4 and reads the enriched file from the
    disk the Forecaster left; and the rest of the run is what that read, the
    [publishedAt] column, [pd.to_datetime], the Presenter and [st.pyplot]
    make it, whatever the value: the value is handed to the Presenter as
    [forecast_df] and is nowhere tested. *)
Theorem forecaster_not_gated d a r :
  In (Called (CallRunForecasting a) r) (trace d) ->
  exists before called_on value query,
    r = snd (run_forecasting mods a called_on) /\
    In (TextInput "Enter a new topic to analyze:" value query) before /\
    match r with
    | Raise e =>
        outcome d = Raise e /\
        errors (trace d) = [] /\
        trace d = (before ++ [Called (CallRunForecasting a) r; SpinnerExit])%list
    | Return v =>
        let left_by_forecaster := fst (run_forecasting mods a called_on) in
        let path := fa_input_filepath a in
        let entered :=
          (before ++
           [Called (CallRunForecasting a) r;
            SpinnerExit;
            StSuccess "Step 3/4: Forecasting complete!";
            SpinnerEnter step4_text;
            Called (CallReadCsv path) (reading (read_csv path left_by_forecaster))])%list in
        let caught (e : Exn) (in_try : list Event) :=
          if isinstance e "FileNotFoundError" then
            outcome d = Return tt /\
            trace d =
              (entered ++ in_try ++
               [StError ("Could not find the analyzed data file: " +:+ py_str path);
                SpinnerExit])%list
          else if isinstance e "Exception" then
            outcome d = Return tt /\
            trace d =
              (entered ++ in_try ++
               [StError ("An error occurred while creating the dashboard: " +:+ exn_text e);
                SpinnerExit])%list
          else
            outcome d = Raise e /\
            trace d = (entered ++ in_try ++ [SpinnerExit])%list in
        match read_csv path left_by_forecaster with
        | Raise e => caught e []
        | Return df =>
            match column df "publishedAt" with
            | None => caught (KeyError "publishedAt") []
            | Some published =>
                match to_datetime lib published with
                | Raise e => caught e []
                | Return converted =>
                    let args :=
                      {| da_analyzed_df := PyFrame (set_column df "publishedAt" converted);
                         da_forecast_df := v;
                         da_query := query;
                         da_periods := fa_periods a |} in
                    let answer :=
                      snd (generate_dashboard_figure mods args left_by_forecaster) in
                    let presented := [Called (CallGenerateDashboardFigure args) answer] in
                    match answer with
                    | Raise e => caught e presented
                    | Return fig =>
                        match pyplot_raises ui fig with
                        | Some e => caught e presented
                        | None =>
                            outcome d = Return tt /\
                            trace d =
                              (entered ++ presented ++
                               [Pyplot fig;
                                StSuccess "Dashboard generated successfully!";
                                SpinnerExit])%list
                        end
                    end
                end
            end
        end
    end.
Proof.
  intros Hin. destruct r as [v | e].
  - destruct (forecaster_returned _ _ _ Hin) as (w4 & cfg & called_on & Hup & -> & Hf).
    destruct (upto_render_shown _ _ _ _ _ _ Hup) as (_ & _ & _ & _ & v1 & v2 & Hshown).
    exists (page cfg ++
            [SpinnerEnter step1_text;
             Called (CallRunCollection (collection_args cfg (topic cfg))) (Return v1);
             SpinnerExit;
             StSuccess "Step 1/4: Data collection complete!";
             SpinnerEnter step2_text;
             Called (CallRunAnalysis (RAW_NEWS_FILE cfg) (ANALYZED_NEWS_FILE cfg))
               (Return v2);
             SpinnerExit;
             StSuccess "Step 2/4: Sentiment analysis complete!";
             SpinnerEnter step3_text])%list,
      called_on, (QUERY_TOPIC cfg), (topic cfg).
    rewrite Hf. cbn [fst snd].
    split; [reflexivity | ]. split; [locate_event | ].
    unfold trace, outcome.
    rewrite (run_via_render _ _ _ _ _ _ Hup), stage4_eq, render_eq.
    cbv beta zeta. cbn [fa_input_filepath fa_periods forecast_args extend disk shown].
    unfold dashboard_args, missing_file_text, render_error_text.
    destruct (read_csv (ANALYZED_NEWS_FILE cfg) (disk w4)) as [df | e];
      cbn [reading fst snd extend disk shown];
      [ destruct (column df "publishedAt") as [published | ];
        [ destruct (to_datetime lib published) as [converted | e];
          [ destruct (generate_dashboard_figure mods _ (disk w4)) as [d5 [fig | e]];
            cbn [fst snd extend disk shown];
            [ destruct (pyplot_raises ui fig) as [e | ] | ]
          | ]
        | ]
      | ].
    all: cbn [fst snd extend disk shown].
    all: repeat match goal with
         | |- context [if isinstance ?x ?c then _ else _] =>
             destruct (isinstance x c)
         end.
    all: cbn [fst snd extend disk shown]; rewrite Hshown, <- ?app_assoc.
    all: split; reflexivity.
  - destruct (forecaster_raised _ _ _ Hin)
      as (before & called_on & value & query & Hr & Hq & Ho & He & Htr).
    exists before, called_on, value, query. auto.
Qed.

(** C8. In every run in which the button gave [False], the script drew the
    page and its controls, then the prompt, and ended; none of the four
    stages was called. *)
Theorem no_trigger_no_pipeline d :
  In (Button trigger_label false) (trace d) ->
  outcome d = Return tt /\
  (exists value given h,
     trace d =
       [SetPageConfig "wide";
        Title "📈 Project Chimera: Strategic Intelligence Dashboard";
        SidebarHeader "Dashboard Controls";
        TextInput "Enter a new topic to analyze:" value given;
        Selectbox "Select Forecast Period (days):" [PyInt 7; PyInt 15; PyInt 30] 0 h;
        Button "🚀 Generate New Report" false;
        StInfo "Enter a topic in the sidebar and click 'Generate New Report' to begin."]) /\
  calls_to Collector (trace d) = [] /\
  calls_to Analyzer (trace d) = [] /\
  calls_to Forecaster (trace d) = [] /\
  calls_to Presenter (trace d) = [].
Proof.
  walk d; intros Hin; pick_event Hin; simplify_eq; try congruence.
  unfold page. rewrite Heqb.
  repeat split; try reflexivity. eauto.
Qed.

(** C6, as the script has it. When [config.py] cannot be imported, or does
    not define one of the nine names, so that the import raises an
    [ImportError], the run shows the configuration error with the details
    and the hint, and is halted by [st.stop()]: nothing else is drawn, no
    control and no button. *)
Theorem unimportable_config_stops d :
  unimportable ->
  exists e,
    isinstance e "ImportError" = true /\
    outcome d = Raise StopException /\
    trace d =
      [StError config_error_text;
       StError ("Details: " +:+ exn_text e);
       StInfo "Ensure your `config.py` and `.env` files are correctly set up."] /\
    forall label given, ~ In (Button label given) (trace d).
Proof.
  intros Hun. unfold trace, outcome, run, app, bind.
  destruct (load_settings_cases (fresh d))
    as [(cfg & Hcfg & Hrun) | [(e & _ & He & Hrun) | (e & Hc & He & Hrun)]].
  - by destruct (configured_importable cfg).
  - rewrite Hrun. exists e. repeat split; try done.
    intros label given Hin. pick_event Hin.
  - destruct Hun as [Ha | [(e' & He' & Hi) | (file & names & name & Hc' & _)]];
      congruence.
Qed.

(** ** Stage 4 *)



Lemma has_column_false df name :
  has_column (Csv df) name = false -> column df name = None.
Proof.
  unfold has_column. intros H. apply bool_decide_eq_false in H.
  destruct (column df name); [ | done]. destruct H. eauto.
Qed.

(** The body of the [try] shows no message of its own before it raises. *)
Lemma render_raises cfg query periods forecast_df w w' e :
  render cfg query periods forecast_df w = (w', Raise e) ->
  exists evs,
    shown w' = (shown w ++ evs)%list /\ errors evs = [] /\ charts evs = [] /\
    ~ In (StSuccess dashboard_done_text) evs.
Proof.
  rewrite render_eq. reduce_world.
  repeat walk_step; intros [= <- <-]; cbn [extend shown];
    eexists; (split; [reflexivity | ]);
    (repeat split; try reflexivity); intros Hin; pick_event Hin.
Qed.


(** C10. In every run that reaches Stage 4 while the enriched file exists
    but gives no [publishedAt] column, the run ends normally with one error
    message, the generic one followed by the text of the error raised (for a
    table without the column, the [KeyError] text ['publishedAt']; for a
    file that does not parse or is empty, the parser's); the
    missing-file message is not shown, no chart is drawn, the dashboard is
    not reported generated, and the Presenter is not called. *)
Theorem undated_file_state d w4 cfg query periods forecast_df p content :
  upto_render (fresh d) = (w4, Return (Some (cfg, query, periods, forecast_df))) ->
  ANALYZED_NEWS_FILE cfg = PyStr p ->
  disk w4 !! p = Some content ->
  has_column content "publishedAt" = false ->
  let e :=
    match content with
    | Csv _ => KeyError "publishedAt"
    | Garbled why => ParserError why
    | EmptyFile => EmptyDataError "No columns to parse from file"
    end in
  outcome d = Return tt /\
  errors (trace d) =
    ["An error occurred while creating the dashboard: " +:+ exn_text e] /\
  (exists before, trace d = (before ++ [StError (render_error_text e); SpinnerExit])%list) /\
  ~ In (StError (missing_file_text cfg)) (trace d) /\
  charts (trace d) = [] /\
  ~ In (StSuccess dashboard_done_text) (trace d) /\
  calls_to Presenter (trace d) = [].
Proof.
  intros Hup Hp Hd Hcol e.
  destruct (upto_render_shown _ _ _ _ _ _ Hup) as (_ & -> & -> & _ & v1 & v2 & Hshown).
  unfold trace, outcome. rewrite (run_via_render _ _ _ _ _ _ Hup), stage4_eq, render_eq.
  reduce_world. rewrite Hp. unfold read_csv. rewrite Hd.
  destruct content as [df | why | ]; subst e; reduce_world.
  - rewrite (has_column_false _ _ Hcol). reduce_world.
    change (isinstance (KeyError "publishedAt") "FileNotFoundError") with false.
    change (isinstance (KeyError "publishedAt") "Exception") with true.
    reduce_world. rewrite Hshown.
    split; [reflexivity | ]. split; [reflexivity | ].
    split.
    { eexists (page cfg ++ [_; _; _; _; _; _; _; _; _; _; _; _; _; _])%list.
      rewrite <- !app_assoc. reflexivity. }
    split; [intros Hin; rewrite <- !app_assoc in Hin; pick_event Hin | ].
    split; [reflexivity | ].
    split; [intros Hin; rewrite <- !app_assoc in Hin; pick_event Hin | reflexivity].
  - change (isinstance (ParserError why) "FileNotFoundError") with false.
    change (isinstance (ParserError why) "Exception") with true.
    reduce_world. rewrite Hshown.
    split; [reflexivity | ]. split; [reflexivity | ].
    split.
    { eexists (page cfg ++ [_; _; _; _; _; _; _; _; _; _; _; _; _; _])%list.
      rewrite <- !app_assoc. reflexivity. }
    split; [intros Hin; rewrite <- !app_assoc in Hin; pick_event Hin | ].
    split; [reflexivity | ].
    split; [intros Hin; rewrite <- !app_assoc in Hin; pick_event Hin | reflexivity].
  - change (isinstance (EmptyDataError "No columns to parse from file") "FileNotFoundError") with false.
    change (isinstance (EmptyDataError "No columns to parse from file") "Exception") with true.
    reduce_world. rewrite Hshown.
    split; [reflexivity | ]. split; [reflexivity | ].
    split.
    { eexists (page cfg ++ [_; _; _; _; _; _; _; _; _; _; _; _; _; _])%list.
      rewrite <- !app_assoc. reflexivity. }
    split; [intros Hin; rewrite <- !app_assoc in Hin; pick_event Hin | ].
    split; [reflexivity | ].
    split; [intros Hin; rewrite <- !app_assoc in Hin; pick_event Hin | reflexivity].
Qed.

(** C7, as the script has it. In every run that reaches Stage 4, the first
    thing Stage 4 does is to read the configured path of the enriched file
    from the disk as the first three stages left it.  When that read gives a
    table with a [publishedAt] column that [pd.to_datetime] converts, the
    Presenter is called exactly once, with exactly that table with the
    column replaced by the converted one, what the Forecaster returned, the
    topic the text field gave and the horizon the selectbox gave.  The
    Presenter is called in no other case and with no other arguments. *)
Theorem render_reloads_from_disk d w4 cfg query periods forecast_df :
  upto_render (fresh d) = (w4, Return (Some (cfg, query, periods, forecast_df))) ->
  (exists after,
     trace d =
       (shown w4 ++
        [SpinnerEnter step4_text;
         Called (CallReadCsv (ANALYZED_NEWS_FILE cfg))
           (reading (read_csv (ANALYZED_NEWS_FILE cfg) (disk w4)))] ++ after)%list) /\
  (exists value,
     In (TextInput "Enter a new topic to analyze:" value query) (shown w4)) /\
  In (Selectbox "Select Forecast Period (days):" horizons 0 periods) (shown w4) /\
  In (Called (CallRunForecasting (forecast_args cfg periods)) (Return forecast_df))
     (shown w4) /\
  (forall df published converted,
     read_csv (ANALYZED_NEWS_FILE cfg) (disk w4) = Return df ->
     column df "publishedAt" = Some published ->
     to_datetime lib published = Return converted ->
     exists r,
       calls_to Presenter (trace d) =
         [Called (CallGenerateDashboardFigure
                    {| da_analyzed_df := PyFrame (set_column df "publishedAt" converted);
                       da_forecast_df := forecast_df;
                       da_query := query;
                       da_periods := periods |}) r]) /\
  (forall args r,
     In (Called (CallGenerateDashboardFigure args) r) (trace d) ->
     exists df published converted,
       read_csv (ANALYZED_NEWS_FILE cfg) (disk w4) = Return df /\
       column df "publishedAt" = Some published /\
       to_datetime lib published = Return converted /\
       args = {| da_analyzed_df := PyFrame (set_column df "publishedAt" converted);
                 da_forecast_df := forecast_df;
                 da_query := query;
                 da_periods := periods |}).
Proof.
  intros Hup.
  destruct (upto_render_shown _ _ _ _ _ _ Hup) as (_ & -> & -> & _ & v1 & v2 & Hshown).
  unfold trace, outcome. rewrite (run_via_render _ _ _ _ _ _ Hup), stage4_eq, render_eq.
  reduce_world.
  repeat walk_step.
  all: split; [eexists; rewrite <- !app_assoc; reflexivity | ].
  all: rewrite Hshown; rewrite <- ?app_assoc.
  all: split; [eexists; unfold page; cbn [In Datatypes.app]; do 3 right; left; reflexivity | ].
  all: split; [unfold page; cbn [In Datatypes.app]; do 4 right; left; reflexivity | ].
  all: split; [unfold page; cbn [In Datatypes.app]; do 15 right; left; reflexivity | ].
  all: split;
    [ intros df' published' converted' Hr Hc Ht; simplify_eq;
      repeat match goal with
      | H1 : ?x = _, H2 : ?x = _ |- _ => rewrite H1 in H2
      end;
      simplify_eq; eexists; reflexivity
    | intros args r Hin; pick_event Hin; simplify_eq; eauto 7 ].
Qed.


(** ** More of what the script does *)

(** The stages a run called, the success messages it showed, and the
    spinners it opened and closed, in order. *)
Definition stages_called (tr : list Event) : list Stage :=
  omap (fun ev => match ev with Called c _ => stage_of c | _ => None end) tr.

Definition successes (tr : list Event) : list string :=
  omap (fun ev => match ev with StSuccess text => Some text | _ => None end) tr.

Definition spinners (tr : list Event) : list Event :=
  List.filter
    (fun ev => match ev with SpinnerEnter _ | SpinnerExit => true | _ => false end) tr.

(** X1. Lines 17-28 catch [ImportError] only: when running [config.py]
    raises anything else, nothing at all is shown, no configuration error
    either, and that exception leaves the script. *)
Theorem config_exception_escapes d e :
  config = ConfigRaises e ->
  isinstance e "ImportError" = false ->
  outcome d = Raise e /\ trace d = [].
Proof.
  intros Hc He. unfold trace, outcome, run, app, bind.
  destruct (load_settings_cases (fresh d))
    as [(cfg & (file & names & Hc' & _) & _)
       | [(e' & Hun & _ & _) | (e' & Hc' & _ & Hrun)]].
  - congruence.
  - destruct Hun as [Ha | [(e'' & Hc'' & Hi) | (file & names & name & Hc'' & _)]];
      congruence.
  - rewrite Hrun. assert (e' = e) as -> by congruence. done.
Qed.

(** X2. Lines 18-22 take the nine names in order: the details line of the
    configuration error names the first of them that [config.py] does not
    define, whatever it defines of the later ones. *)
Theorem first_missing_name_reported d file names earlier name later :
  config = ConfigLoaded file names ->
  required_settings = (earlier ++ name :: later)%list ->
  (forall n, n ∈ earlier -> is_Some (names !! n)) ->
  names !! name = None ->
  outcome d = Raise StopException /\
  trace d =
    [StError config_error_text;
     StError ("Details: cannot import name '" +:+ name +:+ "' from 'config' ("
                +:+ file +:+ ")");
     StInfo "Ensure your `config.py` and `.env` files are correctly set up."].
Proof.
  intros Hc Hsplit Hearlier Hname.
  assert (Himport :
    from_config_import (fresh d) =
      (fresh d, Raise (ImportError ("cannot import name '" +:+ name +:+ "' from 'config' ("
                                      +:+ file +:+ ")")))).
  { unfold from_config_import. rewrite Hc. unfold bind, import_from, ret, raise.
    unfold required_settings in Hsplit.
    repeat (destruct earlier as [ | n0 earlier]; simpl in Hsplit;
            [ injection Hsplit as <- <-; rewrite ?Hname; reflexivity
            | injection Hsplit as <- Hsplit;
              match goal with
              | H : forall n, n ∈ (?x :: _) -> _ |- _ =>
                  destruct (H x) as [? ->]; [set_solver | ]
              end;
              assert (forall n, n ∈ earlier -> is_Some (names !! n)) as Hearlier'
                by (intros; apply Hearlier; set_solver);
              clear Hearlier; rename Hearlier' into Hearlier ]).
    destruct earlier; simpl in Hsplit; discriminate Hsplit. }
  unfold trace, outcome, run, app, bind, load_settings, try_except.
  rewrite Himport.
  change (isinstance (ImportError ?t) "ImportError") with true. cbn [List.find fst snd].
  unfold st_error, st_info, st_stop, bind, emit, raise, log, fresh. cbn. done.
Qed.

(** X3. Stages 1 and 2 have no [try]: an exception raised by
    [run_collection] or [run_analysis] is the outcome of the run.  No error
    message is shown for it, the spinner is closed, and no later stage is
    called. *)
Theorem stage_exception_escapes d c e :
  In (Called c (Raise e)) (trace d) ->
  stage_of c = Some Collector \/ stage_of c = Some Analyzer ->
  outcome d = Raise e /\
  errors (trace d) = [] /\
  last (trace d) = Some SpinnerExit /\
  (stage_of c = Some Collector -> calls_to Analyzer (trace d) = []) /\
  calls_to Forecaster (trace d) = [] /\
  calls_to Presenter (trace d) = [].
Proof.
  walk d; intros Hin Hs; pick_event Hin; simplify_eq; try (by destruct Hs).
  all: repeat split; try reflexivity; discriminate.
Qed.

(** X4. [if not collection_success] and [if not analysis_success] test the
    truth of what the stage returned: when that test itself raises (a
    DataFrame has no truth value), the exception is the outcome of the run,
    neither the failure message nor the success message of the stage is
    shown (for the Analyzer, the only success message is that of Stage 1),
    and no later stage is called. *)
Theorem untestable_answer_escapes d c v e :
  In (Called c (Return v)) (trace d) ->
  stage_of c = Some Collector \/ stage_of c = Some Analyzer ->
  truth v = Raise e ->
  outcome d = Raise e /\
  errors (trace d) = [] /\
  last (trace d) = Some SpinnerExit /\
  (stage_of c = Some Collector ->
   successes (trace d) = [] /\ calls_to Analyzer (trace d) = []) /\
  (stage_of c = Some Analyzer ->
   successes (trace d) = ["Step 1/4: Data collection complete!"]) /\
  calls_to Forecaster (trace d) = [] /\
  calls_to Presenter (trace d) = [].
Proof.
  walk d; intros Hin Hs Hv; pick_event Hin; simplify_eq; try (by destruct Hs);
    try congruence.
  all: assert (e0 = e) as -> by congruence.
  all: repeat split; try reflexivity; discriminate.
Qed.

(** X5. In every run the stages are called in the order Collector,
    Analyzer, Forecaster, Presenter, each at most once and none skipped:
    the stages called are a prefix of the four. *)
Theorem stages_in_order d :
  stages_called (trace d) `prefix_of` [Collector; Analyzer; Forecaster; Presenter].
Proof.
  walk d; eexists; reflexivity.
Qed.

(** X6. No call is made unless the step before it succeeded: the Analyzer
    is called only after the Collector returned a value that tests true,
    the Forecaster only after the Analyzer did, the enriched file is read
    only after the Forecaster returned, and the Presenter is called only
    after that read gave a table with a [publishedAt] column. *)
Theorem call_needs_previous_success d c r :
  In (Called c r) (trace d) ->
  match c with
  | CallRunCollection _ => In (Button trigger_label true) (trace d)
  | CallRunAnalysis _ _ =>
      exists a v,
        In (Called (CallRunCollection a) (Return v)) (trace d) /\ truth v = Return true
  | CallRunForecasting _ =>
      exists input output v,
        In (Called (CallRunAnalysis input output) (Return v)) (trace d) /\
        truth v = Return true
  | CallReadCsv _ =>
      exists a v, In (Called (CallRunForecasting a) (Return v)) (trace d)
  | CallGenerateDashboardFigure _ =>
      exists path df,
        In (Called (CallReadCsv path) (Return (PyFrame df))) (trace d) /\
        is_Some (column df "publishedAt")
  end.
Proof.
  walk d; intros Hin; pick_event Hin; simplify_eq.
  all: try (rewrite <- Heqb; locate_event).
  all: try (do 2 eexists; split; [locate_event | eassumption]).
  all: try (do 3 eexists; split; [locate_event | eassumption]).
  all: try (do 2 eexists; locate_event).
  all: do 2 eexists; (split; [locate_event | ]); unfold reading in *; eauto.
Qed.

(** X7. Line 95 catches every [Exception] that line 93 did not: whatever
    raises it inside the [try] of Stage 4, an exception that is an
    [Exception] but no [FileNotFoundError] ends the run normally with one
    error message, the generic one followed by the text of the exception;
    no chart is drawn and the dashboard is not reported generated. *)
Theorem render_error_reported d w4 cfg query periods forecast_df w' e :
  upto_render (fresh d) = (w4, Return (Some (cfg, query, periods, forecast_df))) ->
  render cfg query periods forecast_df (log (SpinnerEnter step4_text) w4) = (w', Raise e) ->
  isinstance e "FileNotFoundError" = false ->
  isinstance e "Exception" = true ->
  outcome d = Return tt /\
  errors (trace d) = ["An error occurred while creating the dashboard: " +:+ exn_text e] /\
  (exists before,
     trace d = (before ++ [StError (render_error_text e); SpinnerExit])%list) /\
  charts (trace d) = [] /\
  ~ In (StSuccess dashboard_done_text) (trace d).
Proof.
  intros Hup Hrender Hf He.
  destruct (upto_render_shown _ _ _ _ _ _ Hup) as (_ & -> & -> & _ & v1 & v2 & Hshown).
  destruct (render_raises _ _ _ _ _ _ _ Hrender) as (evs & Hevs & Herr & Hch & Hdone).
  unfold trace, outcome. rewrite (run_via_render _ _ _ _ _ _ Hup), stage4_eq.
  rewrite <- log_extend, Hrender, Hf, He. reduce_world.
  rewrite Hevs. cbn [log shown]. rewrite Hshown.
  split; [reflexivity | ].
  split; [rewrite !errors_app, Herr; reflexivity | ].
  split; [eauto | ].
  split; [rewrite !charts_app, Hch; reflexivity | ].
  rewrite !in_app_iff. intros [[[[Hin | Hin] | Hin] | Hin] | Hin]; try done;
    pick_event Hin.
Qed.

(** X8. Neither [except] clause of Stage 4 catches an exception that is no
    [Exception] (a [KeyboardInterrupt], or the [StopException] of an
    [st.stop()] inside the Presenter): it closes the spinner and is the
    outcome of the run, with no error message and no chart. *)
Theorem render_exception_escapes d w4 cfg query periods forecast_df w' e :
  upto_render (fresh d) = (w4, Return (Some (cfg, query, periods, forecast_df))) ->
  render cfg query periods forecast_df (log (SpinnerEnter step4_text) w4) = (w', Raise e) ->
  isinstance e "FileNotFoundError" = false ->
  isinstance e "Exception" = false ->
  outcome d = Raise e /\
  errors (trace d) = [] /\
  last (trace d) = Some SpinnerExit /\
  charts (trace d) = [] /\
  ~ In (StSuccess dashboard_done_text) (trace d).
Proof.
  intros Hup Hrender Hf He.
  destruct (upto_render_shown _ _ _ _ _ _ Hup) as (_ & -> & -> & _ & v1 & v2 & Hshown).
  destruct (render_raises _ _ _ _ _ _ _ Hrender) as (evs & Hevs & Herr & Hch & Hdone).
  unfold trace, outcome. rewrite (run_via_render _ _ _ _ _ _ Hup), stage4_eq.
  rewrite <- log_extend, Hrender, Hf, He. reduce_world.
  rewrite Hevs. cbn [log shown]. rewrite Hshown.
  split; [reflexivity | ].
  split; [rewrite !errors_app, Herr; reflexivity | ].
  split; [apply last_snoc | ].
  split; [rewrite !charts_app, Hch; reflexivity | ].
  rewrite !in_app_iff. intros [[[[Hin | Hin] | Hin] | Hin] | Hin]; try done;
    pick_event Hin.
Qed.

(** X9. When the Presenter returns a value that [st.pyplot] accepts, the
    run ends normally: that value is the one chart drawn, right after the
    call, then the dashboard is reported generated and the spinner closed;
    no error is shown and all four success messages are. *)
Theorem chart_is_presenters_figure d a fig :
  In (Called (CallGenerateDashboardFigure a) (Return fig)) (trace d) ->
  pyplot_raises ui fig = None ->
  outcome d = Return tt /\
  errors (trace d) = [] /\
  charts (trace d) = [fig] /\
  successes (trace d) =
    ["Step 1/4: Data collection complete!";
     "Step 2/4: Sentiment analysis complete!";
     "Step 3/4: Forecasting complete!";
     "Dashboard generated successfully!"] /\
  exists before,
    trace d =
      (before ++
       [Called (CallGenerateDashboardFigure a) (Return fig);
        Pyplot fig; StSuccess dashboard_done_text; SpinnerExit])%list.
Proof.
  walk d; intros Hin Hp; pick_event Hin; simplify_eq; try congruence.
  repeat split; try reflexivity.
  eexists (page cfg ++ [_; _; _; _; _; _; _; _; _; _; _; _; _; _])%list.
  rewrite <- app_assoc. reflexivity.
Qed.

(** X10. A run draws at most one chart, and only a value the Presenter
    returned in that run. *)
Theorem chart_only_from_presenter d fig :
  In (Pyplot fig) (trace d) ->
  charts (trace d) = [fig] /\
  exists a, In (Called (CallGenerateDashboardFigure a) (Return fig)) (trace d).
Proof.
  walk d; intros Hin; pick_event Hin; simplify_eq.
  split; [reflexivity | ]. eexists. locate_event.
Qed.

(** X11. The stages are chained through the two configured paths: the
    Analyzer is told to read [RAW_NEWS_FILE], the file the Collector was
    told to write, and to write [ANALYZED_NEWS_FILE], the file the
    Forecaster is told to read and the one Stage 4 reads back; both are the
    values [config.py] binds those names to. *)
Theorem files_handed_on d input output r :
  In (Called (CallRunAnalysis input output) r) (trace d) ->
  exists cfg,
    configured cfg /\
    input = RAW_NEWS_FILE cfg /\
    output = ANALYZED_NEWS_FILE cfg /\
    (exists a v,
       In (Called (CallRunCollection a) (Return v)) (trace d) /\
       ca_output_filepath a = RAW_NEWS_FILE cfg) /\
    (forall a r', In (Called (CallRunCollection a) r') (trace d) ->
                  ca_output_filepath a = RAW_NEWS_FILE cfg) /\
    (forall a r', In (Called (CallRunForecasting a) r') (trace d) ->
                  fa_input_filepath a = ANALYZED_NEWS_FILE cfg) /\
    (forall path r', In (Called (CallReadCsv path) r') (trace d) ->
                     path = ANALYZED_NEWS_FILE cfg).
Proof.
  walk d; intros Hin; pick_event Hin; simplify_eq.
  all: exists cfg.
  all: split; [exact Hcfg | ].
  all: split; [reflexivity | ].
  all: split; [reflexivity | ].
  all: split; [do 2 eexists; split; [locate_event | reflexivity] | ].
  all: repeat split; intros ? ? Hin'; pick_event Hin'; simplify_eq; reflexivity.
Qed.

(** X12. The Presenter is handed the topic the Collector was handed, the
    one the text field gave; the horizon the Forecaster was handed, the one
    the selectbox gave; and the value the Forecaster returned. *)
Theorem topic_and_horizon_handed_on d a r :
  In (Called (CallGenerateDashboardFigure a) r) (trace d) ->
  (exists value,
     In (TextInput "Enter a new topic to analyze:" value (da_query a)) (trace d)) /\
  In (Selectbox "Select Forecast Period (days):" horizons 0 (da_periods a)) (trace d) /\
  (exists a1 v1,
     In (Called (CallRunCollection a1) (Return v1)) (trace d) /\
     ca_query a1 = da_query a) /\
  (exists a3,
     In (Called (CallRunForecasting a3) (Return (da_forecast_df a))) (trace d) /\
     fa_periods a3 = da_periods a).
Proof.
  walk d; intros Hin; pick_event Hin; simplify_eq.
  all: split; [eexists; locate_event | ].
  all: split; [locate_event | ].
  all: split; [do 2 eexists; split; [locate_event | reflexivity] | ].
  all: eexists; split; [locate_event | reflexivity].
Qed.

(** X13. No partial dashboard: in a run that shows any error message, no
    chart is drawn and the dashboard is not reported generated. *)
Theorem no_chart_with_error d :
  errors (trace d) <> [] ->
  charts (trace d) = [] /\
  ~ In (StSuccess dashboard_done_text) (trace d).
Proof.
  walk d; intros He; try (by destruct He).
  all: split; [reflexivity | intros Hin; pick_event Hin].
Qed.

(** The spinners of the first stages, opened and closed one after the
    other. *)
Definition spinner_pairs (texts : list string) : list Event :=
  flat_map (fun text => [SpinnerEnter text; SpinnerExit]) texts.

(** X14. However a run ends, by [st.stop()], by an exception or normally,
    no spinner is left open and none is opened inside another: the spinner
    events of the run are those of the first few stages, each opened and
    closed before the next, in the order of the stages. *)
Theorem spinners_closed d :
  exists texts,
    texts `prefix_of` [step1_text; step2_text; step3_text; step4_text] /\
    spinners (trace d) = spinner_pairs texts.
Proof.
  walk d;
    first
      [ exists []; split; [by eexists | reflexivity]
      | exists [step1_text]; split; [by eexists | reflexivity]
      | exists [step1_text; step2_text]; split; [by eexists | reflexivity]
      | exists [step1_text; step2_text; step3_text]; split; [by eexists | reflexivity]
      | exists [step1_text; step2_text; step3_text; step4_text];
        split; [by eexists | reflexivity] ].
Qed.

(** X15. Progress is reported in order and never ahead of the work: the
    success messages of a run are a prefix of the four, and there are never
    more of them than stages called. *)
Theorem successes_in_order d :
  successes (trace d) `prefix_of`
    ["Step 1/4: Data collection complete!";
     "Step 2/4: Sentiment analysis complete!";
     "Step 3/4: Forecasting complete!";
     "Dashboard generated successfully!"] /\
  (length (successes (trace d)) <= length (stages_called (trace d)))%nat.
Proof.
  walk d; (split; [eexists; reflexivity | cbn; lia]).
Qed.

(** X17. The script writes no file itself: a run in which the Collector is
    not called leaves the disk as it found it. *)
Theorem idle_run_keeps_disk d :
  calls_to Collector (trace d) = [] ->
  disk (fst (run d)) = d.
Proof.
  walk d; reduce_world; intros Hc; try reflexivity.
  all: apply (f_equal length) in Hc; discriminate Hc.
Qed.

Lemma column_set_column df name col :
  column (set_column df name col) name = Some col.
Proof.
  induction df as [ | [n c] df IH]; simpl.
  - by rewrite String.eqb_refl.
  - destruct (String.eqb n name) eqn:E; simpl; by rewrite E.
Qed.

Lemma column_set_column_other df name col other :
  other <> name ->
  column (set_column df name col) other = column df other.
Proof.
  intros Hne. induction df as [ | [n c] df IH]; simpl.
  - destruct (String.eqb_spec name other); congruence.
  - destruct (String.eqb_spec n name) as [-> | Hn]; simpl.
    + destruct (String.eqb_spec name other); congruence.
    + by rewrite IH.
Qed.

Lemma set_column_names df name col :
  is_Some (column df name) ->
  List.map fst (set_column df name col) = List.map fst df.
Proof.
  induction df as [ | [n c] df IH]; simpl.
  - by intros [? ?].
  - destruct (String.eqb n name); simpl; [done | ].
    intros H. by rewrite IH.
Qed.

(** X16. Line 82 replaces one column where it stands: the table the
    Presenter is handed has the columns of the table read back, under the
    same names in the same order, and each of them unchanged but
    [publishedAt], which is what [pd.to_datetime] made of the one read. *)
Theorem presenter_table_keeps_columns d a r :
  In (Called (CallGenerateDashboardFigure a) r) (trace d) ->
  exists path df table published converted,
    In (Called (CallReadCsv path) (Return (PyFrame df))) (trace d) /\
    da_analyzed_df a = PyFrame table /\
    List.map fst table = List.map fst df /\
    column df "publishedAt" = Some published /\
    to_datetime lib published = Return converted /\
    column table "publishedAt" = Some converted /\
    forall name, name <> "publishedAt" -> column table name = column df name.
Proof.
  walk d; intros Hin; pick_event Hin; simplify_eq.
  all: unfold reading in *; simplify_eq.
  all: do 5 eexists.
  all: split; [locate_event | ].
  all: split; [reflexivity | ].
  all: split; [apply set_column_names; eauto | ].
  all: split; [eassumption | ].
  all: split; [eassumption | ].
  all: split; [apply column_set_column | ].
  all: intros name Hne; by apply column_set_column_other.
Qed.

Lemma configured_unique cfg cfg' : configured cfg -> configured cfg' -> cfg = cfg'.
Proof.
  intros (file & names & Hc & H1 & H2 & H3 & H4 & H5 & H6 & H7 & H8 & H9)
         (file' & names' & Hc' & H1' & H2' & H3' & H4' & H5' & H6' & H7' & H8' & H9').
  rewrite Hc in Hc'. injection Hc' as <- <-.
  destruct cfg, cfg'; simpl in *. congruence.
Qed.

(** X19. Once the configuration is loaded, the page and its three controls
    are drawn before anything else, whatever the run does next: a stage
    that fails, stops the run or raises does so with the controls already
    on the page. *)
Theorem controls_drawn_first d cfg :
  configured cfg ->
  page cfg `prefix_of` trace d.
Proof.
  intros Hc. unfold trace.
  destruct (run d) as [w o] eqn:E; cbn [fst]; revert E.
  destruct (load_settings_cases (fresh d))
    as [(cfg' & Hcfg & Hrun) | [(e & Hun & _ & _) | (e & Hcr & _ & _)]].
  - rewrite (configured_unique _ _ Hc Hcfg).
    unfold run, app, bind; rewrite Hrun; reduce_world.
    repeat walk_step; intros [= <- <-]; cbn [shown]; eexists; reflexivity.
  - by destruct (configured_importable _ Hc).
  - destruct Hc as (? & ? & ? & _); congruence.
Qed.

End App.

(** ** The theorems at work on the sample installation *)

Ltac find_event := solve [repeat first [left; reflexivity | right]].

Lemma collector_failure_halts_witness :
  let mods := pipeline_of collect_nothing analyze_ok forecast_ok present_ok in
  outcome sample_lib sample_config mods xyz_ui ∅ = Raise StopException /\
  calls_to Analyzer (trace sample_lib sample_config mods xyz_ui ∅) = [] /\
  calls_to Forecaster (trace sample_lib sample_config mods xyz_ui ∅) = [] /\
  calls_to Presenter (trace sample_lib sample_config mods xyz_ui ∅) = [].
Proof.
  intros mods.
  destruct (collector_failure_halts sample_lib sample_config mods xyz_ui ∅
              (collection_args sample_settings (PyStr "xyz")) (PyBool false))
    as (Ho & _ & _ & _ & Ha & Hf & Hp).
  - vm_compute. find_event.
  - reflexivity.
  - auto.
Defined.

Lemma analyzer_failure_halts_witness :
  let mods := pipeline_of collect_ok analyze_failing forecast_ok present_ok in
  outcome sample_lib sample_config mods pressed_ui ∅ = Raise StopException /\
  calls_to Forecaster (trace sample_lib sample_config mods pressed_ui ∅) = [] /\
  calls_to Presenter (trace sample_lib sample_config mods pressed_ui ∅) = [].
Proof.
  intros mods.
  destruct (analyzer_failure_halts sample_lib sample_config mods pressed_ui ∅
              (collection_args sample_settings (PyStr "artificial intelligence"))
              (PyBool true)
              (PyStr "data/raw_news.csv") (PyStr "data/analyzed_news.csv")
              (PyBool false))
    as (Ho & _ & _ & _ & Hf & Hp).
  - vm_compute. find_event.
  - reflexivity.
  - vm_compute. find_event.
  - reflexivity.
  - auto.
Defined.

Lemma forecaster_called_once_witness :
  length (calls_to Forecaster (trace sample_lib sample_config sample_mods xyz_ui ∅)) = 1%nat.
Proof.
  destruct (forecaster_called_once sample_lib sample_config sample_mods xyz_ui ∅
              (collection_args sample_settings (PyStr "xyz")) (PyBool true)
              (PyStr "data/raw_news.csv") (PyStr "data/analyzed_news.csv")
              (PyBool true))
    as (cfg & h & _ & _ & _ & Hcalls).
  - vm_compute. find_event.
  - reflexivity.
  - vm_compute. find_event.
  - reflexivity.
  - cbv zeta in Hcalls. destruct Hcalls as (Hcalls & _).
    rewrite Hcalls. reflexivity.
Defined.

Lemma forecaster_not_gated_witness :
  let mods := pipeline_of collect_ok analyze_ok forecast_none present_ok in
  exists before called_on value query,
    Return PyNone =
      snd (run_forecasting mods (forecast_args sample_settings (PyInt 7)) called_on) /\
    In (TextInput "Enter a new topic to analyze:" value query) before.
Proof.
  intros mods.
  destruct (forecaster_not_gated sample_lib sample_config mods pressed_ui ∅
              (forecast_args sample_settings (PyInt 7)) (Return PyNone))
    as (before & called_on & value & query & Hr & Hq & _).
  - vm_compute. find_event.
  - exists before, called_on, value, query. split; [exact Hr | exact Hq].
Defined.

Lemma no_trigger_no_pipeline_witness :
  outcome sample_lib sample_config sample_mods idle_ui ∅ = Return tt /\
  calls_to Collector (trace sample_lib sample_config sample_mods idle_ui ∅) = [].
Proof.
  destruct (no_trigger_no_pipeline sample_lib sample_config sample_mods idle_ui ∅)
    as (Ho & _ & Hc & _).
  - vm_compute. find_event.
  - auto.
Defined.

Lemma unimportable_config_stops_witness :
  outcome sample_lib incomplete_config sample_mods pressed_ui ∅ = Raise StopException.
Proof.
  destruct (unimportable_config_stops sample_lib incomplete_config sample_mods pressed_ui ∅)
    as (e & _ & Ho & _).
  - right; right.
    exists "/srv/chimera/config.py", (delete "SLACK_WEBHOOK_URL" sample_names),
      "SLACK_WEBHOOK_URL".
    split; [reflexivity | ]. split; [ | vm_compute; reflexivity].
    unfold required_settings. do 3 right. left.
  - exact Ho.
Defined.

(** C6 as stated fails on a setting that is defined but malformed: with
    [NEGATIVE_THRESHOLD] bound to the text [high], nothing is reported, the
    page is drawn with its button, and on a press the text [high] is what
    the Forecaster is handed as the negative threshold. *)
Lemma malformed_config_reaches_ui :
  (<["NEGATIVE_THRESHOLD" := PyStr "high"]> sample_names : gmap string PyVal)
    !! "NEGATIVE_THRESHOLD" = Some (PyStr "high") /\
  In (Button trigger_label false)
     (trace sample_lib malformed_config sample_mods idle_ui ∅) /\
  errors (trace sample_lib malformed_config sample_mods idle_ui ∅) = [] /\
  outcome sample_lib malformed_config sample_mods idle_ui ∅ = Return tt /\
  exists a r,
    In (Called (CallRunForecasting a) r)
       (trace sample_lib malformed_config sample_mods pressed_ui ∅) /\
    fa_neg_threshold a = PyStr "high".
Proof.
  split; [vm_compute; reflexivity | ].
  split; [vm_compute; find_event | ].
  split; [vm_compute; reflexivity | ].
  split; [vm_compute; reflexivity | ].
  eexists _, _. split; [vm_compute; find_event | reflexivity].
Qed.



Lemma undated_file_state_witness :
  let mods := pipeline_of collect_ok analyze_undated forecast_ok present_ok in
  errors (trace sample_lib sample_config mods pressed_ui ∅) =
    ["An error occurred while creating the dashboard: 'publishedAt'"].
Proof.
  intros mods.
  destruct (undated_file_state sample_lib sample_config mods pressed_ui ∅
              (fst (upto_render sample_lib sample_config mods pressed_ui (fresh ∅)))
              sample_settings (PyStr "artificial intelligence") (PyInt 7)
              (PyFrame forecast_table) "data/analyzed_news.csv" (Csv undated_table))
    as (_ & He & _).
  - vm_compute. reflexivity.
  - reflexivity.
  - vm_compute. reflexivity.
  - reflexivity.
  - exact He.
Defined.

Lemma render_reloads_from_disk_witness :
  exists r,
    calls_to Presenter (trace sample_lib sample_config sample_mods pressed_ui ∅) =
      [Called (CallGenerateDashboardFigure
                 {| da_analyzed_df :=
                      PyFrame [("publishedAt", [CTime 0; CTime 0]);
                               ("title", [CStr "Chips rally"; CStr "Model recalled"]);
                               ("sentiment", [CFloat "0.6"; CFloat "-0.4"])];
                    da_forecast_df := PyFrame forecast_table;
                    da_query := PyStr "artificial intelligence";
                    da_periods := PyInt 7 |}) r].
Proof.
  destruct (render_reloads_from_disk sample_lib sample_config sample_mods pressed_ui ∅
              (fst (upto_render sample_lib sample_config sample_mods pressed_ui (fresh ∅)))
              sample_settings (PyStr "artificial intelligence") (PyInt 7)
              (PyFrame forecast_table))
    as (_ & _ & _ & _ & Hcall & _).
  - vm_compute. reflexivity.
  - apply (Hcall analyzed_table
             [CStr "2024-05-01T09:00:00Z"; CStr "2024-05-02T10:30:00Z"]
             [CTime 0; CTime 0]);
      vm_compute; reflexivity.
Defined.

(** C7 as stated fails where the reload fails: this run reaches Stage 4,
    the Analyzer having reported success without writing the enriched file,
    and the Presenter is not called in it. *)
Lemma render_without_presenter :
  let mods := pipeline_of collect_ok analyze_forgetful forecast_ok present_ok in
  (exists w4,
     upto_render sample_lib sample_config mods pressed_ui (fresh ∅) =
       (w4, Return (Some (sample_settings, PyStr "artificial intelligence", PyInt 7,
                          PyFrame forecast_table)))) /\
  In (SpinnerEnter step4_text) (trace sample_lib sample_config mods pressed_ui ∅) /\
  calls_to Presenter (trace sample_lib sample_config mods pressed_ui ∅) = [].
Proof.
  intros mods.
  split.
  { exists (fst (upto_render sample_lib sample_config mods pressed_ui (fresh ∅))).
    vm_compute. reflexivity. }
  split; [vm_compute; find_event | vm_compute; reflexivity].
Qed.



(** ** Two runs in full *)

(** The default topic, 7 days, every stage succeeding: the enriched file is
    reloaded, one chart is drawn, no error is shown. *)
Example run_to_dashboard :
  outcome sample_lib sample_config sample_mods pressed_ui ∅ = Return tt /\
  errors (trace sample_lib sample_config sample_mods pressed_ui ∅) = [] /\
  charts (trace sample_lib sample_config sample_mods pressed_ui ∅) =
    [PyObj "matplotlib.figure.Figure" 1] /\
  length (calls_to Collector (trace sample_lib sample_config sample_mods pressed_ui ∅)) = 1%nat /\
  length (calls_to Analyzer (trace sample_lib sample_config sample_mods pressed_ui ∅)) = 1%nat /\
  length (calls_to Forecaster (trace sample_lib sample_config sample_mods pressed_ui ∅)) = 1%nat /\
  length (calls_to Presenter (trace sample_lib sample_config sample_mods pressed_ui ∅)) = 1%nat.
Proof. vm_compute. repeat split. Qed.

(** Topic "xyz", 30 days, the Collector finding nothing: the whole run. *)
Example run_without_articles :
  trace sample_lib sample_config
    (pipeline_of collect_nothing analyze_ok forecast_ok present_ok) xyz_ui ∅ =
    [SetPageConfig "wide";
     Title "📈 Project Chimera: Strategic Intelligence Dashboard";
     SidebarHeader "Dashboard Controls";
     TextInput "Enter a new topic to analyze:" (PyStr "artificial intelligence") (PyStr "xyz");
     Selectbox "Select Forecast Period (days):" [PyInt 7; PyInt 15; PyInt 30] 0 (PyInt 30);
     Button "🚀 Generate New Report" true;
     SpinnerEnter "Step 1/4: Collecting articles from NewsAPI, GNews, and Twitter...";
     Called (CallRunCollection
               {| ca_query := PyStr "xyz";
                  ca_output_filepath := PyStr "data/raw_news.csv";
                  ca_newsapi_key := PyStr "news-key";
                  ca_gnews_key := PyStr "gnews-key";
                  ca_twitter_token := PyStr "bearer" |})
       (Return (PyBool false));
     SpinnerExit;
     StError "Failed to collect any articles. Please check your API keys and the query term."].
Proof. vm_compute. reflexivity. Qed.

(** ** More runs of the sample installation *)

(** A [config.py] that fails to parse a threshold; an extra name in
    [config.py]; a Collector that cannot reach the network, and one that
    returns the table it collected; a Presenter that rejects its data, and
    one interrupted from the keyboard. *)
Definition crashing_config : ConfigImport :=
  ConfigRaises (ValueError "could not convert string to float: 'high'").

Definition verbose_names : gmap string PyVal :=
  <["LOG_LEVEL" := PyStr "debug"]> sample_names.

Definition collect_offline : Collaborator :=
  fails {| exn_mro := ["ConnectionError"; "OSError"; "Exception"; "BaseException"];
           exn_text := "Network is unreachable" |}.
Definition collect_table : Collaborator := answers (PyFrame raw_table).
Definition present_rejecting : Collaborator :=
  fails (ValueError "x and y must have same first dimension").
Definition present_interrupted : Collaborator :=
  fails {| exn_mro := ["KeyboardInterrupt"; "BaseException"]; exn_text := "" |}.

(** X18. Only the nine imported names of [config.py] reach the script: two
    configurations that agree on them give the same run. *)
Theorem other_names_ignored lib mods ui d file names names' :
  (forall n, n ∈ required_settings -> names !! n = names' !! n) ->
  run lib (ConfigLoaded file names) mods ui d =
  run lib (ConfigLoaded file names') mods ui d.
Proof.
  intros Hsame.
  assert (Himport : forall w,
    from_config_import (ConfigLoaded file names) w =
    from_config_import (ConfigLoaded file names') w).
  { intros w. unfold from_config_import, import_from.
    rewrite !Hsame by (unfold required_settings; set_solver).
    reflexivity. }
  unfold run, app, load_settings, try_except, bind.
  by rewrite Himport.
Qed.

Lemma config_exception_escapes_witness :
  trace sample_lib crashing_config sample_mods pressed_ui ∅ = [].
Proof.
  apply (config_exception_escapes sample_lib crashing_config sample_mods pressed_ui ∅
           (ValueError "could not convert string to float: 'high'"));
    reflexivity.
Defined.

Lemma first_missing_name_reported_witness :
  errors (trace sample_lib incomplete_config sample_mods pressed_ui ∅) =
    [config_error_text;
     "Details: cannot import name 'SLACK_WEBHOOK_URL' from 'config' (/srv/chimera/config.py)"].
Proof.
  destruct (first_missing_name_reported sample_lib incomplete_config sample_mods
              pressed_ui ∅ "/srv/chimera/config.py"
              (delete "SLACK_WEBHOOK_URL" sample_names)
              ["NEWS_API_KEY"; "GNEWS_API_KEY"; "TWITTER_BEARER_TOKEN"]
              "SLACK_WEBHOOK_URL"
              ["RAW_NEWS_FILE"; "ANALYZED_NEWS_FILE"; "QUERY_TOPIC";
               "POSITIVE_THRESHOLD"; "NEGATIVE_THRESHOLD"])
    as (_ & Htrace).
  - reflexivity.
  - reflexivity.
  - intros n Hn.
    repeat (apply elem_of_cons in Hn as [-> | Hn]; [vm_compute; eauto | ]).
    by apply elem_of_nil in Hn.
  - vm_compute. reflexivity.
  - rewrite Htrace. reflexivity.
Defined.

Lemma stage_exception_escapes_witness :
  let mods := pipeline_of collect_offline analyze_ok forecast_ok present_ok in
  errors (trace sample_lib sample_config mods pressed_ui ∅) = [] /\
  calls_to Analyzer (trace sample_lib sample_config mods pressed_ui ∅) = [].
Proof.
  intros mods.
  destruct (stage_exception_escapes sample_lib sample_config mods pressed_ui ∅
              (CallRunCollection
                 (collection_args sample_settings (PyStr "artificial intelligence")))
              {| exn_mro := ["ConnectionError"; "OSError"; "Exception"; "BaseException"];
                 exn_text := "Network is unreachable" |})
    as (_ & He & _ & Ha & _).
  - vm_compute. find_event.
  - left. reflexivity.
  - split; [exact He | exact (Ha eq_refl)].
Defined.

Lemma untestable_answer_escapes_witness :
  let mods := pipeline_of collect_table analyze_ok forecast_ok present_ok in
  errors (trace sample_lib sample_config mods pressed_ui ∅) = [] /\
  calls_to Forecaster (trace sample_lib sample_config mods pressed_ui ∅) = [].
Proof.
  intros mods.
  destruct (untestable_answer_escapes sample_lib sample_config mods pressed_ui ∅
              (CallRunCollection
                 (collection_args sample_settings (PyStr "artificial intelligence")))
              (PyFrame raw_table)
              (ValueError "The truth value of a DataFrame is ambiguous. Use a.empty, a.bool(), a.item(), a.any() or a.all()."))
    as (_ & He & _ & _ & _ & Hf & _).
  - vm_compute. find_event.
  - left. reflexivity.
  - reflexivity.
  - split; [exact He | exact Hf].
Defined.

Lemma call_needs_previous_success_witness :
  exists a v,
    In (Called (CallRunCollection a) (Return v))
       (trace sample_lib sample_config sample_mods pressed_ui ∅) /\
    truth v = Return true.
Proof.
  apply (call_needs_previous_success sample_lib sample_config sample_mods pressed_ui ∅
           (CallRunAnalysis (PyStr "data/raw_news.csv") (PyStr "data/analyzed_news.csv"))
           (Return (PyBool true))).
  vm_compute. find_event.
Defined.

Lemma render_error_reported_witness :
  let mods := pipeline_of collect_ok analyze_ok forecast_ok present_rejecting in
  errors (trace sample_lib sample_config mods pressed_ui ∅) =
    ["An error occurred while creating the dashboard: x and y must have same first dimension"].
Proof.
  intros mods.
  destruct (render_error_reported sample_lib sample_config mods pressed_ui ∅
              (fst (upto_render sample_lib sample_config mods pressed_ui (fresh ∅)))
              sample_settings (PyStr "artificial intelligence") (PyInt 7)
              (PyFrame forecast_table)
              (fst (render sample_lib mods pressed_ui sample_settings
                      (PyStr "artificial intelligence") (PyInt 7) (PyFrame forecast_table)
                      (log (SpinnerEnter step4_text)
                         (fst (upto_render sample_lib sample_config mods pressed_ui
                                 (fresh ∅))))))
              (ValueError "x and y must have same first dimension"))
    as (_ & He & _).
  - vm_compute. reflexivity.
  - vm_compute. reflexivity.
  - reflexivity.
  - reflexivity.
  - exact He.
Defined.

Lemma render_exception_escapes_witness :
  let mods := pipeline_of collect_ok analyze_ok forecast_ok present_interrupted in
  outcome sample_lib sample_config mods pressed_ui ∅ =
    Raise {| exn_mro := ["KeyboardInterrupt"; "BaseException"]; exn_text := "" |} /\
  errors (trace sample_lib sample_config mods pressed_ui ∅) = [].
Proof.
  intros mods.
  destruct (render_exception_escapes sample_lib sample_config mods pressed_ui ∅
              (fst (upto_render sample_lib sample_config mods pressed_ui (fresh ∅)))
              sample_settings (PyStr "artificial intelligence") (PyInt 7)
              (PyFrame forecast_table)
              (fst (render sample_lib mods pressed_ui sample_settings
                      (PyStr "artificial intelligence") (PyInt 7) (PyFrame forecast_table)
                      (log (SpinnerEnter step4_text)
                         (fst (upto_render sample_lib sample_config mods pressed_ui
                                 (fresh ∅))))))
              {| exn_mro := ["KeyboardInterrupt"; "BaseException"]; exn_text := "" |})
    as (Ho & He & _).
  - vm_compute. reflexivity.
  - vm_compute. reflexivity.
  - reflexivity.
  - reflexivity.
  - split; [exact Ho | exact He].
Defined.

Lemma chart_is_presenters_figure_witness :
  charts (trace sample_lib sample_config sample_mods pressed_ui ∅) =
    [PyObj "matplotlib.figure.Figure" 1].
Proof.
  destruct (chart_is_presenters_figure sample_lib sample_config sample_mods pressed_ui ∅
              (dashboard_args analyzed_table [CTime 0; CTime 0]
                 (PyStr "artificial intelligence") (PyInt 7) (PyFrame forecast_table))
              (PyObj "matplotlib.figure.Figure" 1))
    as (_ & _ & Hc & _).
  - vm_compute. find_event.
  - reflexivity.
  - exact Hc.
Defined.

Lemma chart_only_from_presenter_witness :
  exists a,
    In (Called (CallGenerateDashboardFigure a) (Return (PyObj "matplotlib.figure.Figure" 1)))
       (trace sample_lib sample_config sample_mods pressed_ui ∅).
Proof.
  destruct (chart_only_from_presenter sample_lib sample_config sample_mods pressed_ui ∅
              (PyObj "matplotlib.figure.Figure" 1))
    as (_ & Ha).
  - vm_compute. find_event.
  - exact Ha.
Defined.

Lemma files_handed_on_witness :
  exists a v,
    In (Called (CallRunCollection a) (Return v))
       (trace sample_lib sample_config sample_mods pressed_ui ∅) /\
    ca_output_filepath a = PyStr "data/raw_news.csv".
Proof.
  destruct (files_handed_on sample_lib sample_config sample_mods pressed_ui ∅
              (PyStr "data/raw_news.csv") (PyStr "data/analyzed_news.csv")
              (Return (PyBool true)))
    as (cfg & _ & Hinput & _ & (a & v & Hin & Hout) & _).
  - vm_compute. find_event.
  - exists a, v. split; [exact Hin | ]. rewrite Hout, <- Hinput. reflexivity.
Defined.

Lemma topic_and_horizon_handed_on_witness :
  exists a1 v1,
    In (Called (CallRunCollection a1) (Return v1))
       (trace sample_lib sample_config sample_mods xyz_ui ∅) /\
    ca_query a1 = PyStr "xyz".
Proof.
  destruct (topic_and_horizon_handed_on sample_lib sample_config sample_mods xyz_ui ∅
              (dashboard_args analyzed_table [CTime 0; CTime 0]
                 (PyStr "xyz") (PyInt 30) (PyFrame forecast_table))
              (Return (PyObj "matplotlib.figure.Figure" 1)))
    as (_ & _ & Ha & _).
  - vm_compute. find_event.
  - exact Ha.
Defined.

Lemma no_chart_with_error_witness :
  let mods := pipeline_of collect_nothing analyze_ok forecast_ok present_ok in
  charts (trace sample_lib sample_config mods xyz_ui ∅) = [].
Proof.
  intros mods.
  destruct (no_chart_with_error sample_lib sample_config mods xyz_ui ∅) as (Hc & _).
  - vm_compute. discriminate.
  - exact Hc.
Defined.

Lemma presenter_table_keeps_columns_witness :
  exists path df table published converted,
    In (Called (CallReadCsv path) (Return (PyFrame df)))
       (trace sample_lib sample_config sample_mods pressed_ui ∅) /\
    da_analyzed_df
      (dashboard_args analyzed_table [CTime 0; CTime 0]
         (PyStr "artificial intelligence") (PyInt 7) (PyFrame forecast_table)) =
      PyFrame table /\
    List.map fst table = List.map fst df /\
    column df "publishedAt" = Some published /\
    to_datetime sample_lib published = Return converted /\
    column table "publishedAt" = Some converted /\
    forall name, name <> "publishedAt" -> column table name = column df name.
Proof.
  apply (presenter_table_keeps_columns sample_lib sample_config sample_mods pressed_ui ∅
           (dashboard_args analyzed_table [CTime 0; CTime 0]
              (PyStr "artificial intelligence") (PyInt 7) (PyFrame forecast_table))
           (Return (PyObj "matplotlib.figure.Figure" 1))).
  vm_compute. find_event.
Defined.

Lemma idle_run_keeps_disk_witness :
  disk (fst (run sample_lib sample_config sample_mods idle_ui
               {["data/raw_news.csv" := Csv raw_table]})) =
    {["data/raw_news.csv" := Csv raw_table]}.
Proof.
  apply (idle_run_keeps_disk sample_lib sample_config sample_mods idle_ui).
  vm_compute. reflexivity.
Defined.

Lemma other_names_ignored_witness :
  run sample_lib (ConfigLoaded "/srv/chimera/config.py" sample_names)
      sample_mods pressed_ui ∅ =
  run sample_lib (ConfigLoaded "/srv/chimera/config.py" verbose_names)
      sample_mods pressed_ui ∅.
Proof.
  apply other_names_ignored.
  intros n Hn. unfold required_settings in Hn.
  repeat (apply elem_of_cons in Hn as [-> | Hn]; [vm_compute; reflexivity | ]).
  by apply elem_of_nil in Hn.
Defined.

Lemma controls_drawn_first_witness :
  let mods := pipeline_of collect_offline analyze_ok forecast_ok present_ok in
  page sample_lib pressed_ui sample_settings
    `prefix_of` trace sample_lib sample_config mods pressed_ui ∅.
Proof.
  intros mods.
  apply (controls_drawn_first sample_lib sample_config mods pressed_ui ∅ sample_settings).
  exists "/srv/chimera/config.py", sample_names.
  repeat split; vm_compute; reflexivity.
Defined.
